(** * EUNOIA facial emotion monitors: sadness scoring and window aggregation

    A shallow embedding of the scoring and aggregation logic of the three
    monitor scripts under [Backend/facialrecongization]:

    - [face.py]          (module [Face]): 7-class CNN scores, score adjustment,
                         sadness bands, 30 second aggregation window;
    - [face_advanced.py] (module [FaceAdvanced]): binary CNN with an intensity
                         head, landmark rubric, sadness bands, aggregation;
    - [face_simple.py]   (module [FaceSimple]): the aggregation of the
                         heuristic monitor.

    Numbers.  Python floats and numpy scalars are modelled as rationals [Q]
    and compared up to [Qeq] ([==]); the literals [0.3], [0.2], [0.6], ...
    stand for the exact decimal fractions.  Rounding is therefore outside the
    model.  The one place where the scripts can produce a non-finite float
    (the eye aspect ratio of a zero-width eye) is modelled explicitly, see
    [FaceAdvanced.calculate_eye_aspect_ratio].

    External collaborators (camera, cascade detector, Keras model, dlib) are
    inputs of the step functions: a frame brings the clock reading, the number
    of detected faces and the backend's answer, [None] standing for a raised
    exception. *)

From Stdlib Require Import QArith Qabs Qminmax Lqa ZArith Lia.
From Stdlib Require Import String Ascii List Bool Arith.
From Stdlib Require Import Permutation Sorted.
Import ListNotations.

Open Scope Q_scope.

(** ** The fragment of Python the scripts rely on *)
Module Py.

(** [x < y] and [x <= y] on floats. *)
Definition lt (x y : Q) : bool := negb (Qle_bool y x).
Definition le (x y : Q) : bool := Qle_bool x y.

(** Built-in [min(a, b)] and [max(a, b)]: the first argument is kept
    unless the second is strictly smaller (resp. greater). *)
Definition min (a b : Q) : Q := if lt b a then b else a.
Definition max (a b : Q) : Q := if lt a b then b else a.

(** A [dict] with string keys.  Iteration follows insertion order, so a
    dictionary is the list of its items in the order the keys were first
    inserted. *)
Definition dict (V : Type) : Type := list (string * V).

(** [d.get(k, default)] *)
Fixpoint get {V : Type} (d : dict V) (k : string) (default : V) : V :=
  match d with
  | [] => default
  | (k', v) :: r => if String.eqb k' k then v else get r k default
  end.

(** [d[k] = v]: an existing key keeps its position, a new key goes last. *)
Fixpoint set {V : Type} (d : dict V) (k : string) (v : V) : dict V :=
  match d with
  | [] => [(k, v)]
  | (k', v') :: r =>
      if String.eqb k' k then (k', v) :: r else (k', v') :: set r k v
  end.

Definition keys {V : Type} (d : dict V) : list string := map fst d.

(** [max(iterable, key=...)]: the running maximum is replaced only by an
    item whose key is strictly greater, so the first maximal item wins.
    [max] of an empty iterable raises [ValueError]: [None]. *)
Fixpoint max_from {A K : Type} (ltb : K -> K -> bool) (key : A -> K)
    (best : A) (l : list A) : A :=
  match l with
  | [] => best
  | x :: r => max_from ltb key (if ltb (key best) (key x) then x else best) r
  end.

Definition max_key {A K : Type} (ltb : K -> K -> bool) (key : A -> K)
    (l : list A) : option A :=
  match l with
  | [] => None
  | x :: r => Some (max_from ltb key x r)
  end.

(** Truth value of a list, a string and a float in a condition. *)
Definition truthy_list {A : Type} (l : list A) : bool :=
  match l with
  | [] => false
  | _ :: _ => true
  end.
Definition truthy_str (s : string) : bool := negb (String.eqb s "").
Definition truthy_float (x : Q) : bool := negb (Qeq_bool x 0).

(** [s.split(sep)] for a one-character separator. *)
Fixpoint split (sep : ascii) (s : string) : list string :=
  match s with
  | EmptyString => [EmptyString]
  | String c r =>
      if Ascii.eqb c sep then EmptyString :: split sep r
      else match split sep r with
           | [] => [String c EmptyString]
           | w :: ws => String c w :: ws
           end
  end.

End Py.

(** ** Window aggregation shared by the three scripts

    The three [main] loops contain the same lines for the majority vote:
    [[
      emotion_counts = {}
      for entry in window_emotions:
          emo = entry["emotion"]
          emotion_counts[emo] = emotion_counts.get(emo, 0) + 1
      dominant = max(emotion_counts.items(), key=lambda x: x[1])[0]
    ]]
    and the two CNN monitors repeat them for the sadness levels. *)
Module Window.

(** A cell of the CSV row: a plain string, or a float printed with two
    decimals ([f"{x:.2f}"]). *)
Inductive cell : Type :=
| Str (s : string)
| Fixed2 (x : Q).

Definition count_step (d : Py.dict nat) (emo : string) : Py.dict nat :=
  Py.set d emo (Py.get d emo 0%nat + 1)%nat.

Definition tally (labels : list string) : Py.dict nat :=
  fold_left count_step labels [].

(** [max(counts.items(), key=lambda x: x[1])[0]] *)
Definition dominant_of (counts : Py.dict nat) : option string :=
  option_map fst (Py.max_key Nat.ltb snd counts).

Definition dominant (labels : list string) : option string :=
  dominant_of (tally labels).

(** [total_intensity = 0; for ...: total_intensity += ...] *)
Definition total (xs : list Q) : Q := fold_left Qplus xs 0.

Definition len {A : Type} (l : list A) : Q := inject_Z (Z.of_nat (length l)).

(** [x if x else "N/A"] on the optional level and
    [f"{x:.2f}" if x else "N/A"] on the optional mean. *)
Definition level_cell (sadness_level : option string) : cell :=
  match sadness_level with
  | Some s => if Py.truthy_str s then Str s else Str "N/A"
  | None => Str "N/A"
  end.

Definition intensity_cell (sadness_intensity : option Q) : cell :=
  match sadness_intensity with
  | Some x => if Py.truthy_float x then Fixed2 x else Str "N/A"
  | None => Str "N/A"
  end.

End Window.


(** ** face.py: the 7-class monitor *)
Module Face.

Definition SAMPLE_INTERVAL : Q := 0.3.
Definition AGGREGATION_WINDOW : Q := 30.

Definition EMOTIONS : list string :=
  ["angry"; "disgust"; "fear"; "happy"; "sad"; "surprise"; "neutral"]%string.

Definition SADNESS_LEVELS : Py.dict (Q * Q) :=
  [("upset"%string, (0, 40));
   ("melancholic"%string, (40, 70));
   ("depressed"%string, (70, 100))].

(** [predict_emotion_custom].  [backend] is [model.predict(face_input)[0]],
    or [None] when preprocessing or the model raises; a vector with fewer
    than seven entries makes [predictions[i]] raise [IndexError].  Either
    exception is caught and [None] is returned.  The dictionary is built by a
    comprehension over [range(len(EMOTIONS))]. *)
Definition predict_emotion_custom (backend : option (list Q))
    : option (Py.dict Q) :=
  match backend with
  | None => None
  | Some predictions =>
      if (length predictions <? length EMOTIONS)%nat then None
      else Some (map (fun i => (nth i EMOTIONS EmptyString,
                                nth i predictions 0 * 100))
                     (seq 0 (length EMOTIONS)))
  end.

(** The score the bands are tested against ([adjusted_score] at line 144). *)
Definition adjusted_score (sad_score fear_score neutral_score : Q) : Q :=
  let adjusted_score := sad_score in
  let adjusted_score :=
    if Py.lt 20 fear_score
    then Py.min 100 (sad_score + fear_score * 0.3)
    else adjusted_score in
  let adjusted_score :=
    if Py.lt 40 neutral_score && Py.lt 20 sad_score
    then Py.min 100 (sad_score + neutral_score * 0.2)
    else adjusted_score in
  adjusted_score.

(** [for level, (min_val, max_val) in levels.items():
       if min_val <= x < max_val: return level] *)
Fixpoint find_band (levels : Py.dict (Q * Q)) (x : Q) : option string :=
  match levels with
  | [] => None
  | (level, (min_val, max_val)) :: r =>
      if Py.le min_val x && Py.lt x max_val then Some level
      else find_band r x
  end.

Definition classify_sadness_level (sad_score fear_score neutral_score : Q)
    : string * Q :=
  let adjusted_score := adjusted_score sad_score fear_score neutral_score in
  match find_band SADNESS_LEVELS adjusted_score with
  | Some level => (level, adjusted_score)
  | None => ("upset"%string, sad_score)
  end.

Definition emotion_map : Py.dict string :=
  [("happy", "happy"); ("sad", "sad"); ("angry", "angry");
   ("fear", "fearful"); ("surprise", "surprised"); ("neutral", "neutral");
   ("disgust", "angry")]%string.

(** [max_emotion = max(emotion_scores.items(), key=lambda x: x[1])] *)
Definition max_emotion (emotion_scores : Py.dict Q) : option (string * Q) :=
  Py.max_key Py.lt snd emotion_scores.

(** [get_dominant_emotion]: [None] is the pair [(None, None)] returned for
    an empty dictionary. *)
Definition get_dominant_emotion (emotion_scores : Py.dict Q)
    : option (string * Py.dict Q) :=
  match max_emotion emotion_scores with
  | None => None
  | Some m => Some (Py.get emotion_map (fst m) (fst m), emotion_scores)
  end.

(** Window entries and the variables of [main] that the loop updates. *)
Record entry : Type := mkEntry {
  e_emotion : string;
  e_scores : Py.dict Q
}.

Record sad_entry : Type := mkSad {
  s_level : string;
  s_intensity : Q
}.

Record state : Type := mkState {
  window_emotions : list entry;
  window_sadness_data : list sad_entry;
  window_start : Q;
  last_sample_time : Q;
  current_emotion : string;
  current_sadness_level : option string;
  current_scores : Py.dict Q
}.

(** The state [main] enters the loop with; [t0] is [time.time()]. *)
Definition init (t0 : Q) : state :=
  mkState [] [] t0 0 "neutral" None [].

(** Lines 258-300: the sampling part of one loop iteration.
    [faces] is [len(faces)]; [emotion_scores] is what
    [predict_emotion_custom] (or the DeepFace fallback) returned for the
    first face. *)
Definition sample (now : Q) (faces : nat) (emotion_scores : option (Py.dict Q))
    (st : state) : state :=
  if Py.le SAMPLE_INTERVAL (now - last_sample_time st) && (0 <? faces)%nat
  then
    match emotion_scores with
    | Some (item :: items) =>
        let emotion_scores := item :: items in
        match get_dominant_emotion emotion_scores with
        | Some (dominant_emotion, scores) =>
            let window_emotions' :=
              window_emotions st ++ [mkEntry dominant_emotion emotion_scores] in
            if String.eqb dominant_emotion "sad" then
              let sad_score := Py.get emotion_scores "sad" 0 in
              let fear_score := Py.get emotion_scores "fear" 0 in
              let neutral_score := Py.get emotion_scores "neutral" 0 in
              let '(sadness_level, intensity) :=
                classify_sadness_level sad_score fear_score neutral_score in
              mkState window_emotions'
                      (window_sadness_data st ++ [mkSad sadness_level intensity])
                      (window_start st) now dominant_emotion
                      (Some sadness_level) scores
            else
              mkState window_emotions' (window_sadness_data st)
                      (window_start st) now dominant_emotion None scores
        | None => st
        end
    | _ =>
        mkState (window_emotions st) (window_sadness_data st)
                (window_start st) now (current_emotion st)
                (current_sadness_level st) (current_scores st)
    end
  else st.

(** The row appended to the CSV log (the three wall-clock stamps are left
    out; [r_window_start] is the value they print for the window). *)
Record row : Type := mkRow {
  r_window_start : Q;
  r_primary_emotion : string;
  r_sadness_level : Window.cell;
  r_sadness_intensity : Window.cell;
  r_emotion_scores : Py.dict nat;
  r_samples_collected : nat
}.

(** Lines 382-394: level and mean intensity over the sad samples. *)
Definition sadness_summary (data : list sad_entry)
    : option string * option Q :=
  match data with
  | [] => (None, None)
  | _ :: _ =>
      (Window.dominant (map s_level data),
       Some (Window.total (map s_intensity data) / Window.len data))
  end.

(** Lines 372-410: the summary of a non-empty window. *)
Definition summary (st : state) : option row :=
  match window_emotions st with
  | [] => None
  | _ :: _ =>
      let emotion_counts := Window.tally (map e_emotion (window_emotions st)) in
      match Window.dominant_of emotion_counts with
      | None => None
      | Some dominant =>
          let '(sadness_level, sadness_intensity) :=
            sadness_summary (window_sadness_data st) in
          Some (mkRow (window_start st) dominant
                      (Window.level_cell sadness_level)
                      (Window.intensity_cell sadness_intensity)
                      emotion_counts
                      (length (window_emotions st)))
      end
  end.

(** Lines 371-421: the aggregation check of one loop iteration.  [now] is
    the clock reading taken at the top of the iteration, [t_reset] the fresh
    [time.time()] of line 421. *)
Definition flush (now t_reset : Q) (st : state) : state * option row :=
  if Py.le AGGREGATION_WINDOW (now - window_start st) then
    (mkState [] [] t_reset (last_sample_time st) (current_emotion st)
             (current_sadness_level st) (current_scores st),
     summary st)
  else (st, None).

(** One iteration of the [while True] loop. *)
Definition step (now t_reset : Q) (faces : nat)
    (emotion_scores : option (Py.dict Q)) (st : state) : state * option row :=
  flush now t_reset (sample now faces emotion_scores st).

End Face.


(** ** face_advanced.py: the binary monitor with landmark features *)
Module FaceAdvanced.

Definition SAMPLE_INTERVAL : Q := 0.3.
Definition AGGREGATION_WINDOW : Q := 30.

Definition SADNESS_LEVELS : Py.dict (Q * Q) :=
  [("mild_upset"%string, (0, 35));
   ("moderate_melancholic"%string, (35, 65));
   ("severe_depressed"%string, (65, 100))].

(** A landmark is a pixel position [[x, y]]. *)
Definition point : Type := (Q * Q)%type.

(** The dictionary built by [get_facial_landmarks] from the 68 dlib points:
    six points per eye, five per eyebrow, nine for the nose, twenty for the
    mouth and seventeen for the jaw. *)
Record Landmarks : Type := mkLandmarks {
  left_eye : list point;
  right_eye : list point;
  left_eyebrow : list point;
  right_eyebrow : list point;
  nose : list point;
  mouth : list point;
  jaw : list point
}.

(** [points[i]] and [p - q] on numpy rows. *)
Definition at_ (points : list point) (i : nat) : point := nth i points (0, 0).
Definition sub (p q : point) : point := (fst p - fst q, snd p - snd q).

(** [np.mean] of a vector, [np.mean(points, axis=0)] and
    [np.var(points, axis=0)] (population variance). *)
Definition mean (xs : list Q) : Q := Window.total xs / Window.len xs.
Definition mean_axis0 (points : list point) : point :=
  (mean (map fst points), mean (map snd points)).
Definition var (xs : list Q) : Q :=
  let m := mean xs in mean (map (fun x => (x - m) * (x - m)) xs).
Definition var_axis0 (points : list point) : point :=
  (var (map fst points), var (map snd points)).

(** The result of a numpy float computation that may divide by zero:
    [None] is a non-finite value.  It only arises as a quotient of
    non-negative lengths, hence as [inf] or [nan], and every test
    [x < c] against a finite [c] is then false. *)
Definition below (x : option Q) (c : Q) : bool :=
  match x with
  | Some v => Py.lt v c
  | None => false
  end.

Section Geometry.

(** [np.linalg.norm] of a point: the Euclidean length, which is not
    rational in general and is kept abstract. *)
Variable norm : point -> Q.

(** [ear = (A + B) / (2.0 * C)]; numpy divides by zero with a warning and a
    non-finite result. *)
Definition calculate_eye_aspect_ratio (eye_points : list point) : option Q :=
  let A := norm (sub (at_ eye_points 1) (at_ eye_points 5)) in
  let B := norm (sub (at_ eye_points 2) (at_ eye_points 4)) in
  let C := norm (sub (at_ eye_points 0) (at_ eye_points 3)) in
  if Qeq_bool (2.0 * C) 0 then None else Some ((A + B) / (2.0 * C)).

Definition calculate_eyebrow_distance (eyebrow_points eye_points : list point)
    : Q :=
  let eyebrow_center := mean_axis0 eyebrow_points in
  let eye_center := mean_axis0 eye_points in
  norm (sub eyebrow_center eye_center).

(** Returns [(mar, downturn)]. *)
Definition calculate_mouth_aspect_ratio (mouth_points : list point) : Q * Q :=
  let left_corner := at_ mouth_points 0 in
  let right_corner := at_ mouth_points 6 in
  let top_center := at_ mouth_points 3 in
  let bottom_center := at_ mouth_points 9 in
  let vertical := norm (sub top_center bottom_center) in
  let horizontal := norm (sub left_corner right_corner) in
  let center_y := (snd top_center + snd bottom_center) / 2 in
  let corner_avg_y := (snd left_corner + snd right_corner) / 2 in
  let downturn := Py.max 0 (corner_avg_y - center_y) in
  let mar := if Py.lt 0 horizontal then vertical / horizontal else 0 in
  (mar, downturn).

(** [(left + right) / 2] on two eye aspect ratios. *)
Definition average_ear (left_ear right_ear : option Q) : option Q :=
  match left_ear, right_ear with
  | Some l, Some r => Some ((l + r) / 2)
  | _, _ => None
  end.

(** The measurements [analyze_facial_features] takes of a landmark set:
    its local variables [avg_ear], [avg_brow_dist] and [jaw_variance]
    ([np.var(landmarks['jaw'], axis=0).mean()]). *)
Definition avg_ear (landmarks : Landmarks) : option Q :=
  let left_ear := calculate_eye_aspect_ratio (left_eye landmarks) in
  let right_ear := calculate_eye_aspect_ratio (right_eye landmarks) in
  average_ear left_ear right_ear.

Definition avg_brow_dist (landmarks : Landmarks) : Q :=
  let left_brow_dist :=
    calculate_eyebrow_distance (left_eyebrow landmarks) (left_eye landmarks) in
  let right_brow_dist :=
    calculate_eyebrow_distance (right_eyebrow landmarks) (right_eye landmarks) in
  (left_brow_dist + right_brow_dist) / 2.

Definition jaw_variance (landmarks : Landmarks) : Q :=
  let v := var_axis0 (jaw landmarks) in mean [fst v; snd v].

(** Lines 181-231 of [analyze_facial_features]: the pair
    [(sadness_score, confidence)] before normalisation. *)
Definition rubric (landmarks : Landmarks) : Q * Q :=
  let sadness_score := 0.0 in
  let confidence := 0.0 in
  (* 1. Eye analysis *)
  let avg_ear := avg_ear landmarks in
  let '(sadness_score, confidence) :=
    if below avg_ear 0.20 then (sadness_score + 30, confidence + 30)
    else if below avg_ear 0.25 then (sadness_score + 20, confidence + 20)
    else (sadness_score, confidence) in
  (* 2. Eyebrow analysis *)
  let avg_brow_dist := avg_brow_dist landmarks in
  let '(sadness_score, confidence) :=
    if Py.lt avg_brow_dist 15 then (sadness_score + 25, confidence + 25)
    else if Py.lt avg_brow_dist 20 then (sadness_score + 15, confidence + 15)
    else (sadness_score, confidence) in
  (* 3. Mouth analysis *)
  let '(mar, downturn) := calculate_mouth_aspect_ratio (mouth landmarks) in
  let '(sadness_score, confidence) :=
    if Py.lt 5 downturn then (sadness_score + 35, confidence + 35)
    else if Py.lt 2 downturn then (sadness_score + 20, confidence + 20)
    else (sadness_score, confidence) in
  let '(sadness_score, confidence) :=
    if Py.lt mar 0.3 then (sadness_score + 10, confidence + 10)
    else (sadness_score, confidence) in
  (* 4. Overall facial tension *)
  let jaw_variance := jaw_variance landmarks in
  let '(sadness_score, confidence) :=
    if Py.lt jaw_variance 50 then (sadness_score + 10, confidence + 10)
    else (sadness_score, confidence) in
  (sadness_score, confidence).

Definition analyze_facial_features (landmarks : option Landmarks) : Q :=
  match landmarks with
  | None => 50.0
  | Some landmarks =>
      let '(sadness_score, confidence) := rubric landmarks in
      if Py.lt 0 confidence
      then Py.min 100 ((sadness_score / confidence) * 100)
      else sadness_score
  end.

(** The two outputs of the binary model for one face:
    [predictions[0][0][0]], [predictions[0][0][1]] and
    [predictions[1][0][0]]. *)
Record predictions : Type := mkPredictions {
  p_sad : Q;
  p_happy : Q;
  p_intensity : Q
}.

(** [predict_emotion]: returns [(emotion, intensity, sad_prob, happy_prob)].
    [backend] is [None] when preprocessing or [model.predict] raises; the
    [except] clause then returns the fixed tuple.  [landmarks] is [None] or
    the (non-empty, hence true) dictionary of [get_facial_landmarks]. *)
Definition predict_emotion (backend : option predictions)
    (landmarks : option Landmarks) : string * Q * Q * Q :=
  match backend with
  | None => ("neutral"%string, 0.0, 50.0, 50.0)
  | Some predictions =>
      let sad_prob := p_sad predictions * 100 in
      let happy_prob := p_happy predictions * 100 in
      let model_intensity := p_intensity predictions * 100 in
      if Py.lt sad_prob happy_prob then
        ("happy"%string, 0.0, sad_prob, happy_prob)
      else
        let intensity :=
          match landmarks with
          | Some l =>
              let feature_intensity := analyze_facial_features (Some l) in
              (model_intensity * 0.6) + (feature_intensity * 0.4)
          | None => model_intensity
          end in
        ("sad"%string, intensity, sad_prob, happy_prob)
  end.

End Geometry.

(** [level.split('_')[1]]; every key of [SADNESS_LEVELS] contains an
    underscore, so the index is in range. *)
Definition level_name (level : string) : string :=
  nth 1 (Py.split "_" level) EmptyString.

Fixpoint find_band (levels : Py.dict (Q * Q)) (x : Q) : option string :=
  match levels with
  | [] => None
  | (level, (min_val, max_val)) :: r =>
      if Py.le min_val x && Py.lt x max_val then Some level
      else find_band r x
  end.

Definition classify_sadness_level (intensity : Q) : string :=
  match find_band SADNESS_LEVELS intensity with
  | Some level => level_name level
  | None => "upset"%string
  end.

Record entry : Type := mkEntry {
  e_emotion : string;
  e_intensity : Q;
  e_sad_prob : Q;
  e_happy_prob : Q
}.

Record sad_entry : Type := mkSad {
  s_level : string;
  s_intensity : Q
}.

Record state : Type := mkState {
  window_emotions : list entry;
  window_sadness_data : list sad_entry;
  window_start : Q;
  last_sample_time : Q;
  current_emotion : string;
  current_sadness_level : option string;
  current_intensity : Q;
  current_sad_prob : Q;
  current_happy_prob : Q
}.

Definition init (t0 : Q) : state :=
  mkState [] [] t0 0 "neutral" None 0 0 0.

(** Lines 404-437: the sampling part of one loop iteration. *)
Definition sample (norm : point -> Q) (now : Q) (faces : nat)
    (backend : option predictions) (landmarks : option Landmarks)
    (st : state) : state :=
  if Py.le SAMPLE_INTERVAL (now - last_sample_time st) && (0 <? faces)%nat
  then
    let '(emotion, intensity, sad_prob, happy_prob) :=
      predict_emotion norm backend landmarks in
    let window_emotions' :=
      window_emotions st ++ [mkEntry emotion intensity sad_prob happy_prob] in
    if String.eqb emotion "sad" then
      let sadness_level := classify_sadness_level intensity in
      mkState window_emotions'
              (window_sadness_data st ++ [mkSad sadness_level intensity])
              (window_start st) now emotion (Some sadness_level)
              intensity sad_prob happy_prob
    else
      mkState window_emotions' (window_sadness_data st)
              (window_start st) now emotion None
              intensity sad_prob happy_prob
  else st.

Record row : Type := mkRow {
  r_window_start : Q;
  r_primary_emotion : string;
  r_sadness_level : Window.cell;
  r_sadness_intensity : Window.cell;
  r_happy_confidence : Window.cell;
  r_sad_confidence : Window.cell;
  r_samples_collected : nat
}.

Definition sadness_summary (data : list sad_entry)
    : option string * option Q :=
  match data with
  | [] => (None, None)
  | _ :: _ =>
      (Window.dominant (map s_level data),
       Some (Window.total (map s_intensity data) / Window.len data))
  end.

(** Lines 501-540: the summary of a non-empty window. *)
Definition summary (st : state) : option row :=
  match window_emotions st with
  | [] => None
  | _ :: _ =>
      let emotion_counts := Window.tally (map e_emotion (window_emotions st)) in
      match Window.dominant_of emotion_counts with
      | None => None
      | Some dominant =>
          let '(sadness_level, sadness_intensity) :=
            sadness_summary (window_sadness_data st) in
          let avg_happy := mean (map e_happy_prob (window_emotions st)) in
          let avg_sad := mean (map e_sad_prob (window_emotions st)) in
          Some (mkRow (window_start st) dominant
                      (Window.level_cell sadness_level)
                      (Window.intensity_cell sadness_intensity)
                      (Window.Fixed2 avg_happy) (Window.Fixed2 avg_sad)
                      (length (window_emotions st)))
      end
  end.

(** Lines 500-551: the window is written and restarted only under
    [now - window_start >= AGGREGATION_WINDOW and window_emotions]. *)
Definition flush (now t_reset : Q) (st : state) : state * option row :=
  if Py.le AGGREGATION_WINDOW (now - window_start st)
     && Py.truthy_list (window_emotions st)
  then
    (mkState [] [] t_reset (last_sample_time st) (current_emotion st)
             (current_sadness_level st) (current_intensity st)
             (current_sad_prob st) (current_happy_prob st),
     summary st)
  else (st, None).

Definition step (norm : point -> Q) (now t_reset : Q) (faces : nat)
    (backend : option predictions) (landmarks : option Landmarks)
    (st : state) : state * option row :=
  flush now t_reset (sample norm now faces backend landmarks st).

End FaceAdvanced.

(** ** face_simple.py: the aggregation of the heuristic monitor *)
Module FaceSimple.

Definition AGGREGATION_WINDOW : Q := 30.

Record entry : Type := mkEntry {
  e_emotion : string;
  e_confidence : Q
}.

Record state : Type := mkState {
  window_emotions : list entry;
  window_start : Q
}.

Record row : Type := mkRow {
  r_window_start : Q;
  r_primary_emotion : string;
  r_avg_confidence : Window.cell;
  r_samples_collected : nat
}.

(** Lines 287-308. *)
Definition summary (st : state) : option row :=
  match window_emotions st with
  | [] => None
  | _ :: _ =>
      let emotion_counts := Window.tally (map e_emotion (window_emotions st)) in
      let total_confidence :=
        Window.total (map e_confidence (window_emotions st)) in
      match Window.dominant_of emotion_counts with
      | None => None
      | Some dominant =>
          let avg_confidence :=
            total_confidence / Window.len (window_emotions st) in
          Some (mkRow (window_start st) dominant (Window.Fixed2 avg_confidence)
                      (length (window_emotions st)))
      end
  end.

(** Lines 286-318. *)
Definition flush (now t_reset : Q) (st : state) : state * option row :=
  if Py.le AGGREGATION_WINDOW (now - window_start st)
     && Py.truthy_list (window_emotions st)
  then (mkState [] t_reset, summary st)
  else (st, None).

End FaceSimple.


(** ** More of Python: slices and [sorted] *)
Module PyList.

(** [l[a:b]] for [0 <= a <= b]: bounds past the end are cut off. *)
Definition slice {A : Type} (l : list A) (a b : nat) : list A :=
  firstn (b - a) (skipn a l).

(** [sorted(l, key=..., reverse=True)].  The sort is stable also under
    [reverse=True]: items with equal keys keep their order.  The result of a
    stable sort is unique; it is computed here by insertion from the right,
    an item going in front of the first item whose key is not greater. *)
Fixpoint insert_desc {A : Type} (key : A -> Q) (x : A) (l : list A) : list A :=
  match l with
  | [] => [x]
  | y :: r =>
      if Py.lt (key x) (key y) then y :: insert_desc key x r
      else x :: y :: r
  end.

Fixpoint sorted_desc {A : Type} (key : A -> Q) (l : list A) : list A :=
  match l with
  | [] => []
  | x :: r => insert_desc key x (sorted_desc key r)
  end.

End PyList.

(** ** face.py: what is drawn, and runs of the loop *)
Module FaceDisplay.

(** A BGR colour. *)
Definition colour : Type := (Z * Z * Z)%type.

(** [color_map] of [draw_face_box], in the order of the literal. *)
Definition color_map : list (string * colour) :=
  [("happy"%string, (0, 255, 0)%Z);
   ("sad"%string, (0, 0, 255)%Z);
   ("angry"%string, (0, 0, 200)%Z);
   ("fearful"%string, (255, 165, 0)%Z);
   ("surprised"%string, (0, 255, 255)%Z);
   ("neutral"%string, (128, 128, 128)%Z)].

Fixpoint lookup (d : list (string * colour)) (k : string) (default : colour)
    : colour :=
  match d with
  | [] => default
  | (k', v) :: r => if String.eqb k' k then v else lookup r k default
  end.

(** [color = color_map.get(emotion, (255, 255, 255))] *)
Definition box_colour (emotion : string) : colour :=
  lookup color_map emotion (255, 255, 255)%Z.

(** Lines 353-361: the scores listed in the panel,
    [sorted(current_scores.items(), key=lambda x: x[1], reverse=True)[:3]]. *)
Definition top_scores (current_scores : Py.dict Q) : list (string * Q) :=
  PyList.slice (PyList.sorted_desc snd current_scores) 0 3.

End FaceDisplay.

Module FaceRun.

(** What one iteration of the loop of [face.py] reads: the clock at the top
    of the iteration, the clock at a window restart, the number of faces
    found, and the answer of the custom model for the first face ([None]
    when it raises).  The monitor is run with the custom model loaded
    ([using_custom and model is not None]). *)
Record frame : Type := mkFrame {
  f_now : Q;
  f_reset : Q;
  f_faces : nat;
  f_backend : option (list Q)
}.

Definition step (f : frame) (st : Face.state) : Face.state * option Face.row :=
  Face.step (f_now f) (f_reset f) (f_faces f)
            (Face.predict_emotion_custom (f_backend f)) st.

(** The loop over a sequence of frames: the final state and the rows
    appended to the log, oldest first. *)
Fixpoint run (frames : list frame) (st : Face.state)
    : Face.state * list Face.row :=
  match frames with
  | [] => (st, [])
  | f :: r =>
      let '(st', out) := step f st in
      let '(st'', rows) := run r st' in
      (st'', match out with Some row => row :: rows | None => rows end)
  end.

End FaceRun.

(** ** face_advanced.py: landmarks, colours and runs of the loop *)
Module FaceAdvancedIO.

(** [get_facial_landmarks].  [use_landmarks] is the global [USE_LANDMARKS];
    [shape] is the list of points of [predictor(gray, dlib_rect)], [None]
    when dlib raises. *)
Definition get_facial_landmarks (use_landmarks : bool)
    (shape : option (list FaceAdvanced.point))
    : option FaceAdvanced.Landmarks :=
  if negb use_landmarks then None
  else
    match shape with
    | None => None
    | Some landmarks =>
        Some (FaceAdvanced.mkLandmarks
                (PyList.slice landmarks 36 42)
                (PyList.slice landmarks 42 48)
                (PyList.slice landmarks 17 22)
                (PyList.slice landmarks 22 27)
                (PyList.slice landmarks 27 36)
                (PyList.slice landmarks 48 68)
                (PyList.slice landmarks 0 17))
    end.

(** The colour [draw_face_box] picks (lines 293-302). *)
Definition box_colour (emotion : string) (intensity : Q) : FaceDisplay.colour :=
  if String.eqb emotion "happy" then (0, 255, 0)%Z
  else if Py.lt intensity 35 then (100, 100, 255)%Z
  else if Py.lt intensity 65 then (50, 50, 255)%Z
  else (0, 0, 200)%Z.

Record frame : Type := mkFrame {
  f_now : Q;
  f_reset : Q;
  f_faces : nat;
  f_backend : option FaceAdvanced.predictions;
  f_shape : option (list FaceAdvanced.point)
}.

Section Loop.

Variable norm : FaceAdvanced.point -> Q.
Variable use_landmarks : bool.

Definition step (f : frame) (st : FaceAdvanced.state)
    : FaceAdvanced.state * option FaceAdvanced.row :=
  FaceAdvanced.step norm (f_now f) (f_reset f) (f_faces f) (f_backend f)
                    (get_facial_landmarks use_landmarks (f_shape f)) st.

Fixpoint run (frames : list frame) (st : FaceAdvanced.state)
    : FaceAdvanced.state * list FaceAdvanced.row :=
  match frames with
  | [] => (st, [])
  | f :: r =>
      let '(st', out) := step f st in
      let '(st'', rows) := run r st' in
      (st'', match out with Some row => row :: rows | None => rows end)
  end.

End Loop.

End FaceAdvancedIO.

(** ** face_simple.py: the heuristic detector and its loop *)
Module FaceSimpleLoop.

Definition SAMPLE_INTERVAL : Q := 0.5.

(** The three measurements [detect_emotion] takes of the mouth region with
    numpy and the Canny detector. *)
Record measures : Type := mkMeasures {
  brightness_diff : Q;
  inverted_smile : Q;
  edge_ratio : Q
}.

(** [detect_emotion].  [smiles] is [len(smiles)], the number of cascade
    detections; [roi_rows] and [roi_cols] are [len(mouth_roi)] and
    [len(mouth_roi[0])]; [measured] is what lines 46-90 compute when the
    region is larger than 10 by 10.  Returns [(emotion, confidence)]. *)
Definition detect_emotion (smiles roi_rows roi_cols : nat)
    (measured : measures) : string * Q :=
  let m :=
    if (10 <? roi_rows)%nat && (10 <? roi_cols)%nat then measured
    else mkMeasures 0 0 1 in
  let brightness_diff := brightness_diff m in
  let inverted_smile := inverted_smile m in
  let edge_ratio := edge_ratio m in
  if (0 <? smiles)%nat then
    ("happy"%string, Py.min 90 (60 + inject_Z (Z.of_nat smiles) * 10))
  else if Py.lt 5 brightness_diff then
    ("happy"%string, Py.min 85 (50 + brightness_diff * 2))
  else if Py.lt 8 inverted_smile then
    ("sad"%string, Py.min 85 (55 + inverted_smile * 2))
  else if Py.lt 1.5 edge_ratio then
    ("sad"%string, Py.min 80 (50 + (edge_ratio - 1) * 15))
  else if Py.lt brightness_diff (-2) then
    ("sad"%string, Py.min 75 (45 + Qabs brightness_diff * 3))
  else
    ("sad"%string, 35).

(** The variables of [main]: the window, the sampling clock, what is
    displayed and the session counters. *)
Record session : Type := mkSession {
  window : FaceSimple.state;
  last_sample_time : Q;
  current_emotion : string;
  current_confidence : Q;
  happy_count : nat;
  sad_count : nat
}.

Definition init (t0 : Q) : session :=
  mkSession (FaceSimple.mkState [] t0) 0 "neutral" 0.0 0 0.

Record frame : Type := mkFrame {
  f_now : Q;
  f_reset : Q;
  f_faces : nat;
  f_smiles : nat;
  f_roi_rows : nat;
  f_roi_cols : nat;
  f_measured : measures
}.

(** Lines 210-235: the first face is analysed, the loop over the faces
    leaves after it. *)
Definition sample (f : frame) (s : session) : session :=
  if Py.le SAMPLE_INTERVAL (f_now f - last_sample_time s)
     && (0 <? f_faces f)%nat
  then
    let '(emotion, confidence) :=
      detect_emotion (f_smiles f) (f_roi_rows f) (f_roi_cols f)
                     (f_measured f) in
    let w := window s in
    let w' :=
      FaceSimple.mkState
        (FaceSimple.window_emotions w
           ++ [FaceSimple.mkEntry emotion confidence])
        (FaceSimple.window_start w) in
    if String.eqb emotion "happy" then
      mkSession w' (f_now f) emotion confidence
                (happy_count s + 1) (sad_count s)
    else
      mkSession w' (f_now f) emotion confidence
                (happy_count s) (sad_count s + 1)
  else s.

Definition step (f : frame) (s : session) : session * option FaceSimple.row :=
  let s1 := sample f s in
  let '(w, out) := FaceSimple.flush (f_now f) (f_reset f) (window s1) in
  (mkSession w (last_sample_time s1) (current_emotion s1)
             (current_confidence s1) (happy_count s1) (sad_count s1),
   out).

Fixpoint run (frames : list frame) (s : session)
    : session * list FaceSimple.row :=
  match frames with
  | [] => (s, [])
  | f :: r =>
      let '(s', out) := step f s in
      let '(s'', rows) := run r s' in
      (s'', match out with Some row => row :: rows | None => rows end)
  end.

End FaceSimpleLoop.

(** ** train_binary_model.py: the batches of intensity labels *)
Module Training.

(** One [next] of [data_generator] (lines 213-224).  [i] is the batch
    counter of the generator, [batch] is [len(X_batch)], the size of the
    batch the image flow handed out.  Returns the intensity labels of the
    batch and the next counter. *)
Definition data_generator_next {A : Type} (y_intensity : list A)
    (batch_size : nat) (i : nat) (batch : nat) : list A * nat :=
  let start_idx := (i * batch_size)%nat in
  let end_idx := (start_idx + batch)%nat in
  let '(i, start_idx, end_idx) :=
    if (length y_intensity <? end_idx)%nat then (0%nat, 0%nat, batch)
    else (i, start_idx, end_idx) in
  (PyList.slice y_intensity start_idx end_idx, (i + 1)%nat).

End Training.


(** ** Notions used in the statements *)

(** [k] occurs in [p] before the first occurrence of [e]. *)
Definition seen_before (k e : string) (p : list string) : Prop :=
  exists p1 p2, p = p1 ++ e :: p2 /\ ~ In e p1 /\ In k p1.

(** Some indicator of the rubric fires on the landmark set: closed eyes,
    furrowed brows, a downturned mouth, tight lips or a tense jaw, each at
    its weaker threshold. *)
Definition indicator_fires (norm : FaceAdvanced.point -> Q)
    (lm : FaceAdvanced.Landmarks) : bool :=
  FaceAdvanced.below (FaceAdvanced.avg_ear norm lm) 0.25
  || Py.lt (FaceAdvanced.avg_brow_dist norm lm) 20
  || Py.lt 2 (snd (FaceAdvanced.calculate_mouth_aspect_ratio
                     norm (FaceAdvanced.mouth lm)))
  || Py.lt (fst (FaceAdvanced.calculate_mouth_aspect_ratio
                   norm (FaceAdvanced.mouth lm))) 0.3
  || Py.lt (FaceAdvanced.jaw_variance lm) 50.

(** The rank of a level name in the order upset, melancholic, depressed. *)
Definition severity (level : string) : nat :=
  if String.eqb level "upset" then 0
  else if String.eqb level "melancholic" then 1
  else 2.

(** The labels [face.py] shows and logs. *)
Definition display_labels : list string :=
  ["happy"; "sad"; "angry"; "fearful"; "surprised"; "neutral"]%string.

Definition level_names : list string :=
  ["upset"; "melancholic"; "depressed"]%string.

(** The outputs of the 7-class model are probabilities. *)
Definition probabilities (f : FaceRun.frame) : Prop :=
  match FaceRun.f_backend f with
  | None => True
  | Some p => Forall (fun x => 0 <= x <= 1) p
  end.

(** The two buffers of [face.py] and the displayed state agree: one sad
    entry per sample labelled sad, levels and labels from the two tables, a
    level displayed only with the emotion sad. *)
Definition face_window_ok (st : Face.state) : Prop :=
  length (Face.window_sadness_data st)
    = count_occ string_dec
        (map Face.e_emotion (Face.window_emotions st)) "sad"%string /\
  Forall (fun s => In (Face.s_level s) level_names)
         (Face.window_sadness_data st) /\
  Forall (fun e => In (Face.e_emotion e) display_labels)
         (Face.window_emotions st) /\
  (Face.current_sadness_level st <> None ->
     Face.current_emotion st = "sad"%string) /\
  In (Face.current_emotion st) display_labels.

Definition face_intensities_ok (st : Face.state) : Prop :=
  Forall (fun s => 0 < Face.s_intensity s <= 100)
         (Face.window_sadness_data st).

(** A row of [face.py]: no sample was sad and both sadness cells are "N/A",
    or some were and the cells hold a level name and a mean in (0, 100]. *)
Definition face_row_ok (r : Face.row) : Prop :=
  (Py.get (Face.r_emotion_scores r) "sad" 0%nat = 0%nat /\
   Face.r_sadness_level r = Window.Str "N/A" /\
   Face.r_sadness_intensity r = Window.Str "N/A") \/
  ((0 < Py.get (Face.r_emotion_scores r) "sad" 0)%nat /\
   exists l x,
     Face.r_sadness_level r = Window.Str l /\ In l level_names /\
     Face.r_sadness_intensity r = Window.Fixed2 x /\ 0 < x <= 100).

(** A shape of 68 points to run the slicing on: point i is (i, 2 i). *)
Definition ramp_shape : list FaceAdvanced.point :=
  map (fun i => (inject_Z (Z.of_nat i), inject_Z (Z.of_nat (2 * i))))
      (seq 0 68).

(** The buffers and the display of [face_advanced.py] agree: one sad entry
    per sample labelled sad, labels happy, sad or neutral, intensity 0 for
    every sample that is not sad, levels from the table, intensities in
    [0, 100], a level displayed only with the emotion sad. *)
Definition advanced_window_ok (st : FaceAdvanced.state) : Prop :=
  length (FaceAdvanced.window_sadness_data st)
    = count_occ string_dec
        (map FaceAdvanced.e_emotion (FaceAdvanced.window_emotions st))
        "sad"%string /\
  Forall (fun s => In (FaceAdvanced.s_level s) level_names /\
                   0 <= FaceAdvanced.s_intensity s <= 100)
         (FaceAdvanced.window_sadness_data st) /\
  Forall (fun e =>
            In (FaceAdvanced.e_emotion e) ["happy"; "sad"; "neutral"]%string /\
            (FaceAdvanced.e_emotion e <> "sad"%string ->
               FaceAdvanced.e_intensity e == 0))
         (FaceAdvanced.window_emotions st) /\
  (FaceAdvanced.current_sadness_level st <> None ->
     FaceAdvanced.current_emotion st = "sad"%string).

(** The intensity head of the binary model answers in [0, 1]. *)
Definition intensity_in_unit (f : FaceAdvancedIO.frame) : Prop :=
  match FaceAdvancedIO.f_backend f with
  | None => True
  | Some p => 0 <= FaceAdvanced.p_intensity p <= 1
  end.

(** A rational length to run the landmark code on concrete points: the
    taxicab length [|x| + |y|].  The properties below hold for every choice
    of [norm]; this one only serves to evaluate them. *)
Definition taxicab (p : FaceAdvanced.point) : Q := Qabs (fst p) + Qabs (snd p).

(** A face in a 200 by 200 crop: open eyes, raised brows, level mouth. *)
Definition open_face : FaceAdvanced.Landmarks :=
  FaceAdvanced.mkLandmarks
    [(60, 80); (66, 76); (74, 76); (80, 80); (74, 84); (66, 84)]
    [(120, 80); (126, 76); (134, 76); (140, 80); (134, 84); (126, 84)]
    [(54, 58); (61, 54); (70, 53); (79, 54); (86, 58)]
    [(114, 58); (121, 54); (130, 53); (139, 54); (146, 58)]
    [(100, 84); (100, 94); (100, 104); (100, 114); (90, 120); (95, 122);
     (100, 124); (105, 122); (110, 120)]
    [(76, 150); (84, 146); (92, 144); (100, 145); (108, 144); (116, 146);
     (124, 150); (116, 158); (108, 162); (100, 163); (92, 162); (84, 158);
     (80, 150); (92, 149); (100, 150); (108, 149); (120, 150); (108, 154);
     (100, 155); (92, 154)]
    [(30, 80); (31, 96); (33, 112); (37, 128); (43, 143); (52, 156);
     (63, 167); (76, 175); (100, 178); (124, 175); (137, 167); (148, 156);
     (157, 143); (163, 128); (167, 112); (169, 96); (170, 80)].

(** The same face with the corners of the mouth pulled down by 16 pixels,
    which puts them 12 pixels below the centre of the lips. *)
Definition downturned_face : FaceAdvanced.Landmarks :=
  FaceAdvanced.mkLandmarks
    (FaceAdvanced.left_eye open_face) (FaceAdvanced.right_eye open_face)
    (FaceAdvanced.left_eyebrow open_face) (FaceAdvanced.right_eyebrow open_face)
    (FaceAdvanced.nose open_face)
    [(76, 166); (84, 146); (92, 144); (100, 145); (108, 144); (116, 146);
     (124, 166); (116, 158); (108, 162); (100, 163); (92, 162); (84, 158);
     (80, 150); (92, 149); (100, 150); (108, 149); (120, 150); (108, 154);
     (100, 155); (92, 154)]
    (FaceAdvanced.jaw open_face).


(** * Properties *)

(** ** Comparisons, [min] and [max] *)

Lemma lt_iff (x y : Q) : Py.lt x y = true <-> x < y.
Proof.
  unfold Py.lt. rewrite negb_true_iff.
  split; intro H.
  - apply Qnot_le_lt. intro L. apply Qle_bool_iff in L. congruence.
  - destruct (Qle_bool y x) eqn:E; [|reflexivity].
    apply Qle_bool_iff in E. lra.
Qed.

Lemma lt_false_iff (x y : Q) : Py.lt x y = false <-> y <= x.
Proof.
  unfold Py.lt. rewrite negb_false_iff. apply Qle_bool_iff.
Qed.

Lemma le_iff (x y : Q) : Py.le x y = true <-> x <= y.
Proof. apply Qle_bool_iff. Qed.

Lemma le_false_iff (x y : Q) : Py.le x y = false <-> y < x.
Proof.
  unfold Py.le. split; intro H.
  - apply Qnot_le_lt. intro L. apply Qle_bool_iff in L. congruence.
  - destruct (Qle_bool x y) eqn:E; [|reflexivity].
    apply Qle_bool_iff in E. lra.
Qed.

Lemma min_le_left (a b : Q) : Py.min a b <= a.
Proof.
  unfold Py.min. destruct (Py.lt b a) eqn:E.
  - apply lt_iff in E. lra.
  - lra.
Qed.

Lemma min_keeps_first (a b : Q) : a <= b -> Py.min a b = a.
Proof.
  intro H. unfold Py.min. apply lt_false_iff in H. now rewrite H.
Qed.

Lemma min_takes_second (a b : Q) : b < a -> Py.min a b = b.
Proof.
  intro H. unfold Py.min. apply lt_iff in H. now rewrite H.
Qed.

(** ** Band lookup *)

(** A band that is found contains the score. *)
Lemma face_find_band_sound (levels : Py.dict (Q * Q)) (x : Q) (level : string) :
  Face.find_band levels x = Some level ->
  exists lo hi, In (level, (lo, hi)) levels /\ lo <= x /\ x < hi.
Proof.
  induction levels as [|[l [lo hi]] r IH]; simpl; [discriminate|].
  destruct (Py.le lo x && Py.lt x hi) eqn:E.
  - intros [= <-]. apply andb_true_iff in E as [E1 E2].
    apply le_iff in E1. apply lt_iff in E2.
    exists lo, hi. auto.
  - intro H. destruct (IH H) as (lo' & hi' & Hin & Hb).
    exists lo', hi'. auto.
Qed.

(** The table of [face.py]: which band is found, by position of the score. *)
Lemma face_find_band_cases (x : Q) :
  Face.find_band Face.SADNESS_LEVELS x =
    if Py.le 0 x && Py.lt x 40 then Some "upset"%string
    else if Py.le 40 x && Py.lt x 70 then Some "melancholic"%string
    else if Py.le 70 x && Py.lt x 100 then Some "depressed"%string
    else None.
Proof. reflexivity. Qed.

Lemma advanced_find_band_cases (x : Q) :
  FaceAdvanced.find_band FaceAdvanced.SADNESS_LEVELS x =
    if Py.le 0 x && Py.lt x 35 then Some "mild_upset"%string
    else if Py.le 35 x && Py.lt x 65 then Some "moderate_melancholic"%string
    else if Py.le 65 x && Py.lt x 100 then Some "severe_depressed"%string
    else None.
Proof. reflexivity. Qed.

(** No band of either table contains a score below 0 or from 100 on. *)
Lemma face_find_band_outside (x : Q) :
  x < 0 \/ 100 <= x -> Face.find_band Face.SADNESS_LEVELS x = None.
Proof.
  intro H. rewrite face_find_band_cases.
  destruct H as [H|H].
  - assert (E : Py.le 0 x = false) by (apply le_false_iff; lra).
    assert (E1 : Py.le 40 x = false) by (apply le_false_iff; lra).
    assert (E2 : Py.le 70 x = false) by (apply le_false_iff; lra).
    now rewrite E, E1, E2.
  - assert (E : Py.lt x 40 = false) by (apply lt_false_iff; lra).
    assert (E1 : Py.lt x 70 = false) by (apply lt_false_iff; lra).
    assert (E2 : Py.lt x 100 = false) by (apply lt_false_iff; lra).
    now rewrite E, E1, E2, !andb_false_r.
Qed.

Lemma advanced_find_band_outside (x : Q) :
  x < 0 \/ 100 <= x ->
  FaceAdvanced.find_band FaceAdvanced.SADNESS_LEVELS x = None.
Proof.
  intro H. rewrite advanced_find_band_cases.
  destruct H as [H|H].
  - assert (E : Py.le 0 x = false) by (apply le_false_iff; lra).
    assert (E1 : Py.le 35 x = false) by (apply le_false_iff; lra).
    assert (E2 : Py.le 65 x = false) by (apply le_false_iff; lra).
    now rewrite E, E1, E2.
  - assert (E : Py.lt x 35 = false) by (apply lt_false_iff; lra).
    assert (E1 : Py.lt x 65 = false) by (apply lt_false_iff; lra).
    assert (E2 : Py.lt x 100 = false) by (apply lt_false_iff; lra).
    now rewrite E, E1, E2, !andb_false_r.
Qed.

(** Inside [0, 100) exactly one band of [face.py] contains the score, and it
    is the one [classify_sadness_level] returns together with the score. *)
Lemma face_classify_in_range (sad fear neutral : Q) :
  let a := Face.adjusted_score sad fear neutral in
  0 <= a -> a < 100 ->
  exists lo hi,
    In (fst (Face.classify_sadness_level sad fear neutral), (lo, hi))
       Face.SADNESS_LEVELS /\
    lo <= a /\ a < hi /\
    snd (Face.classify_sadness_level sad fear neutral) = a.
Proof.
  intros a H0 H100. unfold Face.classify_sadness_level. fold a.
  destruct (Face.find_band Face.SADNESS_LEVELS a) as [level|] eqn:E.
  - destruct (face_find_band_sound _ _ _ E) as (lo & hi & Hin & Hlo & Hhi).
    exists lo, hi. simpl. auto.
  - exfalso. rewrite face_find_band_cases in E.
    destruct (Qlt_le_dec a 40) as [L|L].
    + assert (E0 : Py.le 0 a = true) by (apply le_iff; lra).
      assert (E1 : Py.lt a 40 = true) by (apply lt_iff; lra).
      rewrite E0, E1 in E. discriminate.
    + assert (E0 : Py.lt a 40 = false) by (apply lt_false_iff; lra).
      assert (E1 : Py.le 40 a = true) by (apply le_iff; lra).
      rewrite E0, E1, andb_false_r in E. simpl in E.
      destruct (Qlt_le_dec a 70) as [L'|L'].
      * assert (E2 : Py.lt a 70 = true) by (apply lt_iff; lra).
        rewrite E2 in E. discriminate.
      * assert (E2 : Py.lt a 70 = false) by (apply lt_false_iff; lra).
        assert (E3 : Py.le 70 a = true) by (apply le_iff; lra).
        assert (E4 : Py.lt a 100 = true) by (apply lt_iff; lra).
        rewrite E2, E3, E4 in E. discriminate.
Qed.

(** When the neutral condition holds, the fear term is not part of the
    score, whatever [fear_score] is. *)
Lemma adjusted_score_neutral_branch (sad fear neutral : Q) :
  40 < neutral -> 20 < sad ->
  Face.adjusted_score sad fear neutral = Py.min 100 (sad + neutral * 0.2).
Proof.
  intros Hn Hs. unfold Face.adjusted_score.
  apply lt_iff in Hn. apply lt_iff in Hs. now rewrite Hn, Hs.
Qed.

Lemma adjusted_score_fear_branch (sad fear neutral : Q) :
  20 < fear -> neutral <= 40 \/ sad <= 20 ->
  Face.adjusted_score sad fear neutral = Py.min 100 (sad + fear * 0.3).
Proof.
  intros Hf H. unfold Face.adjusted_score.
  apply lt_iff in Hf. rewrite Hf.
  destruct H as [H|H]; apply lt_false_iff in H; rewrite H;
    now rewrite ?andb_false_r.
Qed.

(** Scores in [0, 100] keep the adjusted score in [0, 100]: each adjustment
    adds a non-negative term and is clamped at 100. *)
Lemma adjusted_score_range (sad fear neutral : Q) :
  0 <= sad <= 100 -> 0 <= fear -> 0 <= neutral ->
  0 <= Face.adjusted_score sad fear neutral <= 100.
Proof.
  intros Hs Hf Hn. unfold Face.adjusted_score.
  assert (M : forall x, 0 <= x -> 0 <= Py.min 100 x <= 100).
  { intros x Hx. split; [|apply min_le_left].
    unfold Py.min. destruct (Py.lt x 100); lra. }
  destruct (Py.lt 40 neutral && Py.lt 20 sad); [apply M; lra|].
  destruct (Py.lt 20 fear); [apply M; lra|lra].
Qed.

(** The level returned is always one of the three names of the table. *)
Lemma face_classify_level_in_table (sad fear neutral : Q) :
  In (fst (Face.classify_sadness_level sad fear neutral))
     (Py.keys Face.SADNESS_LEVELS).
Proof.
  unfold Face.classify_sadness_level.
  destruct (Face.find_band _ _) as [level|] eqn:E; simpl; [|now left].
  destruct (face_find_band_sound _ _ _ E) as (lo & hi & Hin & _).
  apply (in_map fst) in Hin. exact Hin.
Qed.

(** The one adjusted score in [0, 100] that no band contains is 100. *)
Lemma face_find_band_none_in_range (x : Q) :
  0 <= x <= 100 ->
  Face.find_band Face.SADNESS_LEVELS x = None -> x == 100.
Proof.
  intros [H0 H100] E. rewrite face_find_band_cases in E.
  destruct (Qlt_le_dec x 100) as [L|L]; [|lra]. exfalso.
  assert (E0 : Py.le 0 x = true) by (apply le_iff; lra).
  assert (E4 : Py.lt x 100 = true) by (apply lt_iff; lra).
  rewrite E0, E4 in E. simpl in E.
  destruct (Py.lt x 40) eqn:A; [discriminate|].
  apply lt_false_iff in A.
  assert (E1 : Py.le 40 x = true) by (apply le_iff; lra).
  rewrite E1 in E. simpl in E.
  destruct (Py.lt x 70) eqn:B; [discriminate|].
  apply lt_false_iff in B.
  assert (E2 : Py.le 70 x = true) by (apply le_iff; lra).
  rewrite E2 in E. discriminate.
Qed.

(** ** Score adjustment and sadness bands *)

(** C1.  The claim that the fear and neutral adjustments accumulate (final
    score [min(100, min(100, sad + fear*0.3) + neutral*0.2)] when both
    conditions hold) meets the code at [sad_score = 50], [fear_score = 60],
    [neutral_score = 50]: both conditions hold, the fear adjustment alone
    gives 68, the accumulated score would be 78 (band "depressed"), and
    [classify_sadness_level] returns 60 in band "melancholic", because the
    neutral adjustment is computed from [sad_score] and overwrites the fear
    adjustment. *)
Theorem C1_neutral_adjustment_overwrites_fear_adjustment :
  Py.lt 20 60 = true /\
  (Py.lt 40 50 && Py.lt 20 50 = true) /\
  Py.min 100 (50 + 60 * 0.3) == 68 /\
  Py.min 100 (Py.min 100 (50 + 60 * 0.3) + 50 * 0.2) == 78 /\
  Face.find_band Face.SADNESS_LEVELS 78 = Some "depressed"%string /\
  Face.adjusted_score 50 60 50 == 60 /\
  fst (Face.classify_sadness_level 50 60 50) = "melancholic"%string /\
  snd (Face.classify_sadness_level 50 60 50) == 60.
Proof. repeat split; reflexivity. Qed.

(** C3.  The claim that every adjusted score in [0, 100] lies in the band
    that is returned, a score of exactly 100 belonging to the top band, meets
    the code at [sad_score = 100] (no adjustment): the adjusted score is 100,
    no band of the table matches it since every test is [min <= x < max],
    and the fallback returns the lowest band "upset".  The lookup of
    [face_advanced.py] does the same at intensity 100. *)
Theorem C3_score_100_is_classified_upset :
  Face.adjusted_score 100 0 0 == 100 /\
  Face.find_band Face.SADNESS_LEVELS 100 = None /\
  Face.classify_sadness_level 100 0 0 = ("upset"%string, 100) /\
  FaceAdvanced.find_band FaceAdvanced.SADNESS_LEVELS 100 = None /\
  FaceAdvanced.classify_sadness_level 100 = "upset"%string.
Proof. repeat split; reflexivity. Qed.

(** C10.  A score below 0 or above 100 matches no band, and both lookups
    then return "upset", the name of the first (lowest) band of their
    table: in [face.py] for the adjusted score of any three inputs, in
    [face_advanced.py] for any intensity. *)
Theorem C10_out_of_range_defaults_to_lowest_band (sad fear neutral I : Q) :
  Face.adjusted_score sad fear neutral < 0 \/
    100 < Face.adjusted_score sad fear neutral ->
  I < 0 \/ 100 < I ->
  (Face.find_band Face.SADNESS_LEVELS (Face.adjusted_score sad fear neutral)
     = None /\
   fst (Face.classify_sadness_level sad fear neutral) = "upset"%string /\
   hd_error (Py.keys Face.SADNESS_LEVELS)
     = Some (fst (Face.classify_sadness_level sad fear neutral))) /\
  (FaceAdvanced.find_band FaceAdvanced.SADNESS_LEVELS I = None /\
   FaceAdvanced.classify_sadness_level I = "upset"%string /\
   option_map FaceAdvanced.level_name
     (hd_error (Py.keys FaceAdvanced.SADNESS_LEVELS))
     = Some (FaceAdvanced.classify_sadness_level I)).
Proof.
  intros Ha HI.
  assert (Ea : Face.find_band Face.SADNESS_LEVELS
                 (Face.adjusted_score sad fear neutral) = None)
    by (apply face_find_band_outside; lra).
  assert (EI : FaceAdvanced.find_band FaceAdvanced.SADNESS_LEVELS I = None)
    by (apply advanced_find_band_outside; lra).
  unfold Face.classify_sadness_level, FaceAdvanced.classify_sadness_level.
  rewrite Ea, EI. repeat split.
Qed.

Lemma C10_out_of_range_witness :
  (Face.adjusted_score 150 0 0 < 0 \/ 100 < Face.adjusted_score 150 0 0) /\
  fst (Face.classify_sadness_level 150 0 0) = "upset"%string /\
  FaceAdvanced.classify_sadness_level (-5) = "upset"%string.
Proof.
  assert (Ha : Face.adjusted_score 150 0 0 < 0 \/
               100 < Face.adjusted_score 150 0 0)
    by (right; reflexivity).
  assert (HI : -5 < 0 \/ 100 < -5) by (left; reflexivity).
  split; [exact Ha|].
  pose proof (C10_out_of_range_defaults_to_lowest_band 150 0 0 (-5) Ha HI)
    as [(_ & H1 & _) (_ & H2 & _)].
  split; assumption.
Defined.

(** ** [max] with a key: the first maximal item *)

Section MaxKey.

Context {A K : Type}.
Variables (ltb : K -> K -> bool) (key : A -> K).

Hypothesis ltb_trans :
  forall a b c, ltb a b = true -> ltb b c = true -> ltb a c = true.
Hypothesis ltb_le_lt :
  forall a b c, ltb b a = false -> ltb b c = true -> ltb a c = true.

(** [pre ++ best :: mid] has been scanned, [best] is the running maximum:
    everything before it is strictly smaller, nothing after it is greater. *)
Lemma max_from_split (l pre mid : list A) (best : A) :
  (forall x, In x pre -> ltb (key x) (key best) = true) ->
  (forall x, In x mid -> ltb (key best) (key x) = false) ->
  exists pre' post',
    pre ++ best :: mid ++ l = pre' ++ Py.max_from ltb key best l :: post' /\
    (forall x, In x pre' ->
       ltb (key x) (key (Py.max_from ltb key best l)) = true) /\
    (forall x, In x post' ->
       ltb (key (Py.max_from ltb key best l)) (key x) = false).
Proof.
  revert pre mid best.
  induction l as [|x r IH]; intros pre mid best Hpre Hmid; simpl.
  - exists pre, mid. rewrite app_nil_r. auto.
  - destruct (ltb (key best) (key x)) eqn:E.
    + destruct (IH (pre ++ best :: mid) [] x) as (pre' & post' & Eq & H1 & H2).
      * intros y Hy. apply in_app_or in Hy as [Hy|[<-|Hy]].
        -- eapply ltb_trans; eauto.
        -- exact E.
        -- eapply ltb_le_lt; eauto.
      * intros y [].
      * exists pre', post'. split; [|auto].
        rewrite <- Eq. simpl. now rewrite <- app_assoc.
    + destruct (IH pre (mid ++ [x]) best) as (pre' & post' & Eq & H1 & H2).
      * exact Hpre.
      * intros y Hy. apply in_app_or in Hy as [Hy|[<-|[]]]; auto.
      * exists pre', post'. split; [|auto].
        rewrite <- Eq. now rewrite <- app_assoc.
Qed.

Lemma max_key_first_maximal (l : list A) (m : A) :
  Py.max_key ltb key l = Some m ->
  exists pre post,
    l = pre ++ m :: post /\
    (forall x, In x pre -> ltb (key x) (key m) = true) /\
    (forall x, In x post -> ltb (key m) (key x) = false).
Proof.
  destruct l as [|x r]; simpl; [discriminate|].
  intros [= <-].
  destruct (max_from_split r [] [] x) as (pre & post & Eq & H1 & H2).
  - intros y [].
  - intros y [].
  - exists pre, post. simpl in Eq. auto.
Qed.

Lemma max_key_nonempty (l : list A) :
  l <> [] -> exists m, Py.max_key ltb key l = Some m.
Proof.
  destruct l as [|x r]; [congruence|]. intros _. simpl. eauto.
Qed.

End MaxKey.

(** The two orders the scripts take a maximum over. *)
Lemma nat_ltb_trans (a b c : nat) :
  (a <? b)%nat = true -> (b <? c)%nat = true -> (a <? c)%nat = true.
Proof. rewrite !Nat.ltb_lt. lia. Qed.

Lemma nat_ltb_le_lt (a b c : nat) :
  (b <? a)%nat = false -> (b <? c)%nat = true -> (a <? c)%nat = true.
Proof. rewrite Nat.ltb_ge, !Nat.ltb_lt. lia. Qed.

Lemma float_lt_trans (a b c : Q) :
  Py.lt a b = true -> Py.lt b c = true -> Py.lt a c = true.
Proof. rewrite !lt_iff. lra. Qed.

Lemma float_lt_le_lt (a b c : Q) :
  Py.lt b a = false -> Py.lt b c = true -> Py.lt a c = true.
Proof. rewrite lt_false_iff, !lt_iff. lra. Qed.

(** ** Dictionaries *)

Lemma get_set_same {V : Type} (d : Py.dict V) (k : string) (v dflt : V) :
  Py.get (Py.set d k v) k dflt = v.
Proof.
  induction d as [|[k' v'] r IH]; simpl.
  - now rewrite String.eqb_refl.
  - destruct (String.eqb k' k) eqn:E; simpl; now rewrite E.
Qed.

Lemma get_set_other {V : Type} (d : Py.dict V) (k k' : string) (v dflt : V) :
  k <> k' -> Py.get (Py.set d k v) k' dflt = Py.get d k' dflt.
Proof.
  intro N. induction d as [|[k0 v0] r IH]; simpl.
  - apply String.eqb_neq in N. now rewrite N.
  - destruct (String.eqb k0 k) eqn:E; simpl.
    + apply String.eqb_eq in E. subst k0.
      apply String.eqb_neq in N. now rewrite N.
    + now rewrite IH.
Qed.

Lemma keys_set_present {V : Type} (d : Py.dict V) (k : string) (v : V) :
  In k (Py.keys d) -> Py.keys (Py.set d k v) = Py.keys d.
Proof.
  induction d as [|[k' v'] r IH]; simpl; [tauto|].
  intros H. destruct (String.eqb k' k) eqn:E; simpl; [reflexivity|].
  f_equal. apply IH. destruct H as [H|H]; [|exact H].
  apply String.eqb_neq in E. congruence.
Qed.

Lemma set_absent {V : Type} (d : Py.dict V) (k : string) (v : V) :
  ~ In k (Py.keys d) -> Py.set d k v = d ++ [(k, v)].
Proof.
  induction d as [|[k' v'] r IH]; simpl; [reflexivity|].
  intros H. destruct (String.eqb k' k) eqn:E.
  - apply String.eqb_eq in E. tauto.
  - f_equal. apply IH. tauto.
Qed.

Lemma item_get {V : Type} (d : Py.dict V) (k : string) (v dflt : V) :
  NoDup (Py.keys d) -> In (k, v) d -> Py.get d k dflt = v.
Proof.
  induction d as [|[k' v'] r IH]; simpl; [tauto|].
  intros ND [H|H].
  - injection H as -> ->. now rewrite String.eqb_refl.
  - inversion ND as [|? ? Hn ND']; subst.
    destruct (String.eqb k' k) eqn:E.
    + apply String.eqb_eq in E. subst k'.
      exfalso. apply Hn. change k with (fst (k, v)). now apply in_map.
    + now apply IH.
Qed.

(** ** The vote: counts and order of the keys *)

Lemma tally_snoc (p : list string) (x : string) :
  Window.tally (p ++ [x]) = Window.count_step (Window.tally p) x.
Proof. unfold Window.tally. now rewrite fold_left_app. Qed.

Lemma tally_get (p : list string) (k : string) :
  Py.get (Window.tally p) k 0%nat = count_occ string_dec p k.
Proof.
  induction p as [|x p IH] using rev_ind; [reflexivity|].
  rewrite tally_snoc, count_occ_app. unfold Window.count_step. simpl.
  destruct (string_dec x k) as [->|N].
  - rewrite get_set_same, IH. lia.
  - rewrite get_set_other, IH by exact N. lia.
Qed.

Lemma tally_keys_step (p : list string) (x : string) :
  Py.keys (Window.tally (p ++ [x])) =
    if in_dec string_dec x (Py.keys (Window.tally p))
    then Py.keys (Window.tally p)
    else Py.keys (Window.tally p) ++ [x].
Proof.
  rewrite tally_snoc. unfold Window.count_step.
  destruct (in_dec string_dec x (Py.keys (Window.tally p))) as [H|H].
  - now apply keys_set_present.
  - rewrite set_absent by exact H. unfold Py.keys. now rewrite map_app.
Qed.

Lemma tally_keys_in (p : list string) (k : string) :
  In k (Py.keys (Window.tally p)) <-> In k p.
Proof.
  induction p as [|x p IH] using rev_ind; [reflexivity|].
  rewrite tally_keys_step, in_app_iff. simpl.
  destruct (in_dec string_dec x (Py.keys (Window.tally p))) as [H|H].
  - rewrite IH. split; [tauto|]. intros [H'|[<-|[]]]; [exact H'|].
    now apply IH.
  - rewrite in_app_iff, IH. simpl. tauto.
Qed.

Lemma tally_nodup (p : list string) : NoDup (Py.keys (Window.tally p)).
Proof.
  induction p as [|x p IH] using rev_ind; [constructor|].
  rewrite tally_keys_step.
  destruct (in_dec string_dec x (Py.keys (Window.tally p))) as [H|H];
    [exact IH|].
  apply NoDup_rev in IH. rewrite <- (rev_involutive (_ ++ [x])).
  apply NoDup_rev. rewrite rev_app_distr. simpl. constructor; [|exact IH].
  now rewrite <- in_rev.
Qed.

Lemma tally_item (p : list string) (k : string) (v : nat) :
  In (k, v) (Window.tally p) -> v = count_occ string_dec p k /\ In k p.
Proof.
  intro H. split.
  - rewrite <- tally_get. symmetry. apply item_get; [apply tally_nodup|exact H].
  - apply tally_keys_in. change k with (fst (k, v)). now apply in_map.
Qed.

Lemma snoc_split {X : Type} (l a b : list X) (x e : X) :
  l ++ [x] = a ++ e :: b ->
  (b = [] /\ e = x /\ a = l) \/ (exists b', b = b' ++ [x] /\ l = a ++ e :: b').
Proof.
  intro H. destruct b as [|y b] using rev_ind.
  - left. apply app_inj_tail in H as [-> ->]. auto.
  - right. exists b.
    change (a ++ e :: b ++ [y]) with (a ++ (e :: b) ++ [y]) in H.
    rewrite app_assoc in H. apply app_inj_tail in H as [-> ->].
    split; reflexivity.
Qed.

(** The keys of the count dictionary stand in the order of first
    occurrence of the labels. *)
Lemma tally_order (p : list string) (ks1 ks2 : list string) (k e : string) :
  Py.keys (Window.tally p) = ks1 ++ e :: ks2 -> In k ks1 ->
  seen_before k e p.
Proof.
  revert ks1 ks2. induction p as [|x p IH] using rev_ind; intros ks1 ks2.
  - simpl. intro H. now destruct ks1.
  - rewrite tally_keys_step.
    destruct (in_dec string_dec x (Py.keys (Window.tally p))) as [Hx|Hx].
    + intros H Hk. destruct (IH _ _ H Hk) as (p1 & p2 & -> & Hn & Hin).
      exists p1, (p2 ++ [x]). split; [|auto].
      now rewrite <- app_assoc.
    + intros H Hk. apply snoc_split in H as [(-> & -> & ->)|(b' & -> & H)].
      * exists p, []. repeat split.
        -- intro Hp. apply Hx. now apply tally_keys_in.
        -- now apply tally_keys_in.
      * destruct (IH _ _ H Hk) as (p1 & p2 & -> & Hn & Hin).
        exists p1, (p2 ++ [x]). split; [|auto].
        now rewrite <- app_assoc.
Qed.

Lemma tally_nonempty (labels : list string) :
  labels <> [] -> Window.tally labels <> [].
Proof.
  destruct labels as [|x r]; [congruence|]. intros _ E.
  assert (H : In x (Py.keys (Window.tally (x :: r))))
    by (apply tally_keys_in; now left).
  rewrite E in H. exact H.
Qed.

(** What the vote returns: a label of the window with the largest count
    that was seen before every other label with that count. *)
Lemma dominant_first_seen (labels : list string) (d : string) :
  Window.dominant labels = Some d ->
  In d labels /\
  (forall e, count_occ string_dec labels e
               <= count_occ string_dec labels d)%nat /\
  (forall e, e <> d -> In e labels ->
     count_occ string_dec labels e = count_occ string_dec labels d ->
     seen_before d e labels).
Proof.
  unfold Window.dominant, Window.dominant_of.
  destruct (Py.max_key Nat.ltb snd (Window.tally labels)) as [[d' v]|] eqn:E;
    [|discriminate].
  simpl. intros [= ->].
  destruct (max_key_first_maximal Nat.ltb snd nat_ltb_trans nat_ltb_le_lt _ _ E)
    as (pre & post & Eq & Hpre & Hpost).
  assert (Hd : In (d, v) (Window.tally labels))
    by (rewrite Eq; apply in_or_app; right; now left).
  apply tally_item in Hd as [-> Hd].
  assert (Hcount : forall e n, In (e, n) (Window.tally labels) ->
            In (e, n) pre /\ (n < count_occ string_dec labels d)%nat \/
            e = d \/
            In (e, n) post /\ (n <= count_occ string_dec labels d)%nat).
  { intros e n H. rewrite Eq in H. apply in_app_or in H as [H|[H|H]].
    - left. split; [exact H|]. apply Hpre in H. now apply Nat.ltb_lt in H.
    - right; left. congruence.
    - right; right. split; [exact H|]. apply Hpost in H.
      now apply Nat.ltb_ge in H. }
  split; [exact Hd|]. split.
  - intro e. destruct (in_dec string_dec e labels) as [He|He].
    + apply tally_keys_in in He. unfold Py.keys in He.
      apply in_map_iff in He as ([e' n] & <- & He). simpl.
      destruct (tally_item _ _ _ He) as [-> _].
      destruct (Hcount _ _ He) as [[_ H]|[->|[_ H]]]; lia.
    + apply (count_occ_not_In string_dec) in He. lia.
  - intros e Ne He Hc.
    apply tally_keys_in in He. unfold Py.keys in He.
    apply in_map_iff in He as ([e' n] & <- & He). simpl in *.
    destruct (tally_item _ _ _ He) as [-> _].
    destruct (Hcount _ _ He) as [[_ H]|[H|[H _]]]; [lia|congruence|].
    apply in_split in H as (a & b & ->).
    apply (tally_order labels (Py.keys (pre ++ [(d, count_occ string_dec labels d)])
                                 ++ Py.keys a) (Py.keys b)).
    + rewrite Eq. unfold Py.keys. rewrite !map_app. simpl.
      rewrite map_app. simpl. now rewrite <- !app_assoc.
    + unfold Py.keys. rewrite map_app. simpl.
      apply in_or_app; left. apply in_or_app; right. now left.
Qed.

Lemma dominant_defined (labels : list string) :
  labels <> [] -> exists d, Window.dominant labels = Some d.
Proof.
  intro H. apply tally_nonempty in H.
  destruct (max_key_nonempty Nat.ltb snd _ H) as [m E].
  exists (fst m). unfold Window.dominant, Window.dominant_of. now rewrite E.
Qed.



(** ** The dominant emotion of one sample *)

Lemma predict_emotion_custom_keys (predictions : list Q) (scores : Py.dict Q) :
  Face.predict_emotion_custom (Some predictions) = Some scores ->
  Py.keys scores = Face.EMOTIONS /\
  (forall i, (i < 7)%nat ->
     nth_error scores i
       = Some (nth i Face.EMOTIONS EmptyString, nth i predictions 0 * 100)).
Proof.
  unfold Face.predict_emotion_custom.
  destruct (length predictions <? length Face.EMOTIONS)%nat; [discriminate|].
  intros [= <-]. split; [reflexivity|].
  intros i Hi.
  do 7 (destruct i as [|i]; [reflexivity|]). lia.
Qed.

(** The label [get_dominant_emotion] returns is not always the label with
    the largest score.  For the model output (0.1, 0.6, 0, 0.1, 0.1, 0.1, 0)
    the largest score, 60, is that of disgust; the function returns angry,
    whose own score is 10 and so is not the largest. *)
Lemma C9_disgust_dominant_is_returned_as_angry :
  exists scores,
    Face.predict_emotion_custom (Some [0.1; 0.6; 0; 0.1; 0.1; 0.1; 0])
      = Some scores /\
    option_map fst (Face.max_emotion scores) = Some "disgust"%string /\
    option_map fst (Face.get_dominant_emotion scores) = Some "angry"%string /\
    Py.get scores "angry" 0 == 10 /\
    Py.get scores "disgust" 0 == 60 /\
    ~ (Py.get scores "disgust" 0 <= Py.get scores "angry" 0).
Proof.
  eexists. split; [reflexivity|].
  split; [reflexivity|]. split; [reflexivity|].
  split; [reflexivity|]. split; [reflexivity|].
  intro H. vm_compute in H. apply H. reflexivity.
Qed.

(** C9.  For the score dictionary [predict_emotion_custom] builds from a
    model output, the keys are the seven labels in the fixed order, and the
    item [max] selects is the first one with the largest score: every item
    before it has a strictly smaller score and no item after it has a larger
    one.  [get_dominant_emotion] returns the scores together with the label
    of that item passed through the table [emotion_map]: the label itself
    for angry, happy, sad and neutral, and angry, fearful and surprised for
    disgust, fear and surprise. *)
Theorem C9_dominant_emotion_is_remapped_first_argmax
    (predictions : list Q) (scores : Py.dict Q) :
  Face.predict_emotion_custom (Some predictions) = Some scores ->
  Py.keys scores = Face.EMOTIONS /\
  exists pre k v post,
    scores = pre ++ (k, v) :: post /\
    (forall e, In e pre -> snd e < v) /\
    (forall e, In e post -> snd e <= v) /\
    Face.max_emotion scores = Some (k, v) /\
    Face.get_dominant_emotion scores
      = Some (Py.get Face.emotion_map k k, scores) /\
    In k Face.EMOTIONS /\
    (In k ["angry"; "happy"; "sad"; "neutral"]%string ->
       Py.get Face.emotion_map k k = k) /\
    (k = "disgust"%string ->
       Py.get Face.emotion_map k k = "angry"%string) /\
    (k = "fear"%string ->
       Py.get Face.emotion_map k k = "fearful"%string) /\
    (k = "surprise"%string ->
       Py.get Face.emotion_map k k = "surprised"%string).
Proof.
  intro H. destruct (predict_emotion_custom_keys _ _ H) as [Hk _].
  split; [exact Hk|].
  assert (Hne : scores <> []) by (intros ->; discriminate).
  destruct (max_key_nonempty Py.lt snd _ Hne) as [[k v] E].
  destruct (max_key_first_maximal Py.lt snd float_lt_trans float_lt_le_lt _ _ E)
    as (pre & post & Eq & Hpre & Hpost).
  exists pre, k, v, post.
  split; [exact Eq|].
  split; [intros e He; apply lt_iff; now apply Hpre|].
  split; [intros e He; apply lt_false_iff; now apply Hpost|].
  split; [exact E|].
  split; [unfold Face.get_dominant_emotion, Face.max_emotion; now rewrite E|].
  split.
  { rewrite <- Hk, Eq. unfold Py.keys. rewrite map_app. simpl.
    apply in_or_app. right. now left. }
  split; [|split; [|split]].
  - intros [<-|[<-|[<-|[<-|[]]]]]; reflexivity.
  - intros ->. reflexivity.
  - intros ->. reflexivity.
  - intros ->. reflexivity.
Qed.

(** A model output in which happy and sad tie at 40: happy, which comes
    first in the label order, is the dominant emotion. *)
Lemma C9_tie_witness :
  exists scores,
    Face.predict_emotion_custom (Some [0.1; 0; 0; 0.4; 0.4; 0.1; 0])
      = Some scores /\
    Py.keys scores = Face.EMOTIONS /\
    option_map fst (Face.get_dominant_emotion scores) = Some "happy"%string.
Proof.
  eexists. split; [reflexivity|]. split.
  - exact (proj1 (C9_dominant_emotion_is_remapped_first_argmax
                    [0.1; 0; 0; 0.4; 0.4; 0.1; 0] _ eq_refl)).
  - reflexivity.
Defined.

(** ** The aggregation window *)

Lemma dominant_of_tally_defined (labels : list string) :
  labels <> [] -> exists d, Window.dominant_of (Window.tally labels) = Some d.
Proof. apply dominant_defined. Qed.

Lemma face_summary_defined (st : Face.state) :
  Face.window_emotions st <> [] -> exists r, Face.summary st = Some r.
Proof.
  intro H. unfold Face.summary.
  destruct (Face.window_emotions st) as [|e es] eqn:E; [congruence|].
  destruct (dominant_of_tally_defined (map Face.e_emotion (e :: es)))
    as [d Hd]; [discriminate|].
  rewrite Hd. destruct (Face.sadness_summary _). eauto.
Qed.

Lemma advanced_summary_defined (st : FaceAdvanced.state) :
  FaceAdvanced.window_emotions st <> [] ->
  exists r, FaceAdvanced.summary st = Some r.
Proof.
  intro H. unfold FaceAdvanced.summary.
  destruct (FaceAdvanced.window_emotions st) as [|e es] eqn:E; [congruence|].
  destruct (dominant_of_tally_defined (map FaceAdvanced.e_emotion (e :: es)))
    as [d Hd]; [discriminate|].
  rewrite Hd. destruct (FaceAdvanced.sadness_summary _). eauto.
Qed.

Lemma simple_summary_defined (st : FaceSimple.state) :
  FaceSimple.window_emotions st <> [] ->
  exists r, FaceSimple.summary st = Some r.
Proof.
  intro H. unfold FaceSimple.summary.
  destruct (FaceSimple.window_emotions st) as [|e es] eqn:E; [congruence|].
  destruct (dominant_of_tally_defined (map FaceSimple.e_emotion (e :: es)))
    as [d Hd]; [discriminate|].
  rewrite Hd. eauto.
Qed.

Lemma truthy_list_false {A : Type} (l : list A) :
  Py.truthy_list l = false <-> l = [].
Proof. destruct l; simpl; split; congruence. Qed.

Lemma truthy_list_true {A : Type} (l : list A) :
  Py.truthy_list l = true <-> l <> [].
Proof. destruct l; simpl; split; congruence. Qed.

(** C2, as the claim states it, fails in [face_advanced.py] and
    [face_simple.py]: an empty window that has elapsed (opened at 0, checked
    at 30) is left as it is, its start is still 0 and not a clock reading of
    the check (30) or after it (31). *)
Lemma C2_empty_window_is_not_restarted :
  Py.le FaceAdvanced.AGGREGATION_WINDOW
    (30 - FaceAdvanced.window_start (FaceAdvanced.init 0)) = true /\
  FaceAdvanced.window_emotions (FaceAdvanced.init 0) = [] /\
  FaceAdvanced.flush 30 31 (FaceAdvanced.init 0)
    = (FaceAdvanced.init 0, None) /\
  FaceAdvanced.window_start (fst (FaceAdvanced.flush 30 31 (FaceAdvanced.init 0)))
    = 0 /\
  ~ 0 == 30 /\ ~ 0 == 31 /\
  FaceSimple.flush 30 31 (FaceSimple.mkState [] 0)
    = (FaceSimple.mkState [] 0, None).
Proof. repeat split; try reflexivity; discriminate. Qed.

(** C2, amended.  Let the window have elapsed at the check
    ([now - window_start >= AGGREGATION_WINDOW]).  In [face.py] both buffers
    are cleared and [window_start] is set to the fresh clock reading whether
    or not samples were recorded; a row is written exactly when the window
    holds a sample.  In [face_advanced.py] and [face_simple.py] an empty
    window is left untouched: nothing is written and [window_start] is not
    reset; a window with a sample is written, cleared and restarted. *)
Theorem C2_window_restart_on_elapse (now t_reset : Q) :
  (forall st : Face.state,
     Face.AGGREGATION_WINDOW <= now - Face.window_start st ->
     Face.window_emotions (fst (Face.flush now t_reset st)) = [] /\
     Face.window_sadness_data (fst (Face.flush now t_reset st)) = [] /\
     Face.window_start (fst (Face.flush now t_reset st)) = t_reset /\
     (Face.window_emotions st = [] ->
        snd (Face.flush now t_reset st) = None) /\
     (Face.window_emotions st <> [] ->
        exists r, snd (Face.flush now t_reset st) = Some r)) /\
  (forall st : FaceAdvanced.state,
     FaceAdvanced.AGGREGATION_WINDOW <= now - FaceAdvanced.window_start st ->
     (FaceAdvanced.window_emotions st = [] ->
        FaceAdvanced.flush now t_reset st = (st, None)) /\
     (FaceAdvanced.window_emotions st <> [] ->
        FaceAdvanced.window_emotions (fst (FaceAdvanced.flush now t_reset st))
          = [] /\
        FaceAdvanced.window_sadness_data
          (fst (FaceAdvanced.flush now t_reset st)) = [] /\
        FaceAdvanced.window_start (fst (FaceAdvanced.flush now t_reset st))
          = t_reset /\
        exists r, snd (FaceAdvanced.flush now t_reset st) = Some r)) /\
  (forall st : FaceSimple.state,
     FaceSimple.AGGREGATION_WINDOW <= now - FaceSimple.window_start st ->
     (FaceSimple.window_emotions st = [] ->
        FaceSimple.flush now t_reset st = (st, None)) /\
     (FaceSimple.window_emotions st <> [] ->
        FaceSimple.window_emotions (fst (FaceSimple.flush now t_reset st))
          = [] /\
        FaceSimple.window_start (fst (FaceSimple.flush now t_reset st))
          = t_reset /\
        exists r, snd (FaceSimple.flush now t_reset st) = Some r)).
Proof.
  split; [|split].
  - intros st Hw. unfold Face.flush. apply le_iff in Hw. rewrite Hw. simpl.
    repeat split.
    + intro E. unfold Face.summary. now rewrite E.
    + apply face_summary_defined.
  - intros st Hw. unfold FaceAdvanced.flush. apply le_iff in Hw. rewrite Hw.
    split; intro E.
    + apply truthy_list_false in E. now rewrite E.
    + pose proof E as T. apply truthy_list_true in T. rewrite T. simpl.
      repeat split. now apply advanced_summary_defined.
  - intros st Hw. unfold FaceSimple.flush. apply le_iff in Hw. rewrite Hw.
    split; intro E.
    + apply truthy_list_false in E. now rewrite E.
    + pose proof E as T. apply truthy_list_true in T. rewrite T. simpl.
      repeat split. now apply simple_summary_defined.
Qed.

(** An empty window of [face.py] opened at 0 and checked at 30 restarts at
    the fresh reading 31 and writes nothing. *)
Lemma C2_restart_witness :
  Face.AGGREGATION_WINDOW <= 30 - Face.window_start (Face.init 0) /\
  Face.window_start (fst (Face.flush 30 31 (Face.init 0))) = 31 /\
  snd (Face.flush 30 31 (Face.init 0)) = None.
Proof.
  assert (Hw : Face.AGGREGATION_WINDOW <= 30 - Face.window_start (Face.init 0))
    by discriminate.
  split; [exact Hw|].
  destruct (proj1 (C2_window_restart_on_elapse 30 31) (Face.init 0) Hw)
    as (_ & _ & Hs & Hn & _).
  split; [exact Hs|]. apply Hn. reflexivity.
Defined.

(** ** A failed classification *)

(** C4, as the claim states it, fails in [face_advanced.py]: of a first
    sampling tick on which the backend raises, the window holds one sample,
    the tuple of the [except] clause. *)
Lemma C4_failed_classification_is_appended :
  FaceAdvanced.predict_emotion taxicab None None
    = ("neutral"%string, 0.0, 50.0, 50.0) /\
  FaceAdvanced.window_emotions (FaceAdvanced.init 0) = [] /\
  FaceAdvanced.window_emotions
    (FaceAdvanced.sample taxicab 1 1 None None (FaceAdvanced.init 0))
    = [FaceAdvanced.mkEntry "neutral" 0.0 50.0 50.0].
Proof. repeat split. Qed.

(** C4, amended.  On a sampling tick of [face_advanced.py] on which the
    backend raises, [predict_emotion] returns the tuple
    [("neutral", 0.0, 50.0, 50.0)] and [main] appends it to the window's
    sample list as it does any sample; it is shown as the current emotion
    and, not being "sad", leaves the sad-sample list as it is.  In [face.py]
    a backend exception makes [predict_emotion_custom] return [None] and the
    tick appends nothing to either list and keeps the displayed emotion. *)
Theorem C4_failed_classification_per_monitor
    (norm : FaceAdvanced.point -> Q) (now : Q) (faces : nat)
    (landmarks : option FaceAdvanced.Landmarks) (st : FaceAdvanced.state) :
  FaceAdvanced.SAMPLE_INTERVAL <= now - FaceAdvanced.last_sample_time st ->
  (0 < faces)%nat ->
  (FaceAdvanced.window_emotions
     (FaceAdvanced.sample norm now faces None landmarks st)
     = FaceAdvanced.window_emotions st
         ++ [FaceAdvanced.mkEntry "neutral" 0.0 50.0 50.0] /\
   FaceAdvanced.window_sadness_data
     (FaceAdvanced.sample norm now faces None landmarks st)
     = FaceAdvanced.window_sadness_data st /\
   FaceAdvanced.current_emotion
     (FaceAdvanced.sample norm now faces None landmarks st)
     = "neutral"%string) /\
  (forall (now' : Q) (faces' : nat) (st' : Face.state),
     Face.predict_emotion_custom None = None /\
     Face.window_emotions
       (Face.sample now' faces' (Face.predict_emotion_custom None) st')
       = Face.window_emotions st' /\
     Face.window_sadness_data
       (Face.sample now' faces' (Face.predict_emotion_custom None) st')
       = Face.window_sadness_data st' /\
     Face.current_emotion
       (Face.sample now' faces' (Face.predict_emotion_custom None) st')
       = Face.current_emotion st').
Proof.
  intros Ht Hf. split.
  - unfold FaceAdvanced.sample.
    apply le_iff in Ht. apply Nat.ltb_lt in Hf. rewrite Ht, Hf.
    repeat split.
  - intros now' faces' st'. unfold Face.sample. simpl.
    destruct (Py.le Face.SAMPLE_INTERVAL (now' - Face.last_sample_time st')
              && (0 <? faces')%nat); repeat split.
Qed.

(** The first tick of [face_advanced.py], one face in view, one second
    after the start. *)
Lemma C4_failed_classification_witness :
  FaceAdvanced.window_emotions
    (FaceAdvanced.sample taxicab 1 1 None None (FaceAdvanced.init 0))
    = [] ++ [FaceAdvanced.mkEntry "neutral" 0.0 50.0 50.0].
Proof.
  refine (proj1 (proj1 (C4_failed_classification_per_monitor
                          taxicab 1 1 None (FaceAdvanced.init 0) _ _))).
  - discriminate.
  - apply Nat.lt_0_1.
Defined.

(** ** The cells of the sadness columns *)

Lemma level_cell_none : Window.level_cell None = Window.Str "N/A".
Proof. reflexivity. Qed.

Lemma intensity_cell_none : Window.intensity_cell None = Window.Str "N/A".
Proof. reflexivity. Qed.

(** The mean is printed unless it is zero. *)
Lemma intensity_cell_some (x : Q) :
  (x == 0 -> Window.intensity_cell (Some x) = Window.Str "N/A") /\
  (~ x == 0 -> Window.intensity_cell (Some x) = Window.Fixed2 x).
Proof.
  unfold Window.intensity_cell, Py.truthy_float.
  destruct (Qeq_bool x 0) eqn:E; simpl.
  - apply Qeq_bool_iff in E. split; [reflexivity|tauto].
  - split; [|reflexivity]. intro H. apply Qeq_bool_iff in H. congruence.
Qed.

(** With no sad sample both cells of a written row are "N/A". *)
Lemma advanced_row_without_sad_samples (st : FaceAdvanced.state)
    (r : FaceAdvanced.row) :
  FaceAdvanced.summary st = Some r ->
  FaceAdvanced.window_sadness_data st = [] ->
  FaceAdvanced.r_sadness_level r = Window.Str "N/A" /\
  FaceAdvanced.r_sadness_intensity r = Window.Str "N/A".
Proof.
  unfold FaceAdvanced.summary. intros H E. rewrite E in H. simpl in H.
  destruct (FaceAdvanced.window_emotions st); [discriminate|].
  destruct (Window.dominant_of _); [|discriminate].
  injection H as <-. split; reflexivity.
Qed.

Lemma face_row_without_sad_samples (st : Face.state) (r : Face.row) :
  Face.summary st = Some r ->
  Face.window_sadness_data st = [] ->
  Face.r_sadness_level r = Window.Str "N/A" /\
  Face.r_sadness_intensity r = Window.Str "N/A".
Proof.
  unfold Face.summary. intros H E. rewrite E in H. simpl in H.
  destruct (Face.window_emotions st); [discriminate|].
  destruct (Window.dominant_of _); [|discriminate].
  injection H as <-. split; reflexivity.
Qed.

(** With sad samples the intensity cell is the mean, unless the mean is
    zero: then it is "N/A". *)
Lemma advanced_row_with_sad_samples (st : FaceAdvanced.state)
    (r : FaceAdvanced.row) :
  FaceAdvanced.summary st = Some r ->
  FaceAdvanced.window_sadness_data st <> [] ->
  FaceAdvanced.r_sadness_intensity r =
    Window.intensity_cell
      (Some (Window.total (map FaceAdvanced.s_intensity
                             (FaceAdvanced.window_sadness_data st))
             / Window.len (FaceAdvanced.window_sadness_data st))).
Proof.
  unfold FaceAdvanced.summary. intros H E.
  destruct (FaceAdvanced.window_emotions st); [discriminate|].
  destruct (Window.dominant_of _); [|discriminate].
  unfold FaceAdvanced.sadness_summary in H.
  destruct (FaceAdvanced.window_sadness_data st); [congruence|].
  injection H as <-. reflexivity.
Qed.

(** C8.  The claim that a window with a sad sample never has "N/A" in its
    sadness columns meets the code on the first iteration of
    [face_advanced.py] that both samples and closes a window: 30 seconds
    after the start, one face, no landmarks, model output sad 0.6, happy
    0.4, intensity 0.0.  The sample is sad with intensity 0, the window
    holds this one sad sample of level "upset", and the row written has
    level "upset" and intensity "N/A": the mean 0.0 is a false value in
    [f"{sadness_intensity:.2f}" if sadness_intensity else "N/A"]. *)
Theorem C8_zero_mean_intensity_is_written_NA :
  FaceAdvanced.predict_emotion taxicab
      (Some (FaceAdvanced.mkPredictions 0.6 0.4 0)) None
    = ("sad"%string, 0 * 100, 0.6 * 100, 0.4 * 100) /\
  FaceAdvanced.window_sadness_data
      (FaceAdvanced.sample taxicab 30 1
         (Some (FaceAdvanced.mkPredictions 0.6 0.4 0)) None
         (FaceAdvanced.init 0))
    = [FaceAdvanced.mkSad "upset" (0 * 100)] /\
  exists r,
    snd (FaceAdvanced.step taxicab 30 31 1
           (Some (FaceAdvanced.mkPredictions 0.6 0.4 0)) None
           (FaceAdvanced.init 0)) = Some r /\
    FaceAdvanced.r_primary_emotion r = "sad"%string /\
    FaceAdvanced.r_sadness_level r = Window.Str "upset" /\
    FaceAdvanced.r_sadness_intensity r = Window.Str "N/A".
Proof.
  split; [reflexivity|]. split; [reflexivity|].
  eexists. repeat split.
Qed.

(** ** The landmark rubric *)

Ltac split_rubric :=
  repeat match goal with
         | |- context [if ?b then _ else _] => destruct b
         end.

(** Every branch of the rubric adds the same points to the score and to
    the confidence. *)
Lemma rubric_score_is_confidence
    (norm : FaceAdvanced.point -> Q) (lm : FaceAdvanced.Landmarks) :
  fst (FaceAdvanced.rubric norm lm) = snd (FaceAdvanced.rubric norm lm).
Proof.
  unfold FaceAdvanced.rubric.
  destruct (FaceAdvanced.calculate_mouth_aspect_ratio norm _) as [mar downturn].
  split_rubric; reflexivity.
Qed.

Lemma rubric_confidence_nonneg
    (norm : FaceAdvanced.point -> Q) (lm : FaceAdvanced.Landmarks) :
  0 <= snd (FaceAdvanced.rubric norm lm).
Proof.
  unfold FaceAdvanced.rubric.
  destruct (FaceAdvanced.calculate_mouth_aspect_ratio norm _) as [mar downturn].
  split_rubric; discriminate.
Qed.

Lemma analyze_facial_features_unfold
    (norm : FaceAdvanced.point -> Q) (lm : FaceAdvanced.Landmarks) :
  FaceAdvanced.analyze_facial_features norm (Some lm) =
    if Py.lt 0 (snd (FaceAdvanced.rubric norm lm))
    then Py.min 100 (fst (FaceAdvanced.rubric norm lm)
                     / snd (FaceAdvanced.rubric norm lm) * 100)
    else fst (FaceAdvanced.rubric norm lm).
Proof.
  unfold FaceAdvanced.analyze_facial_features.
  now destruct (FaceAdvanced.rubric norm lm).
Qed.

Lemma py_min_is_Qmin (a b : Q) : Py.min a b == Qmin a b.
Proof.
  unfold Py.min. destruct (Py.lt b a) eqn:E.
  - apply lt_iff in E. symmetry. apply Q.min_r. lra.
  - apply lt_false_iff in E. symmetry. now apply Q.min_l.
Qed.

Lemma below_weaker (x : option Q) (a b : Q) :
  a <= b -> FaceAdvanced.below x a = true -> FaceAdvanced.below x b = true.
Proof.
  intro H. destruct x as [v|]; simpl; [|discriminate].
  rewrite !lt_iff. lra.
Qed.

Lemma lt_weaker_upper (x a b : Q) :
  a <= b -> Py.lt x a = true -> Py.lt x b = true.
Proof. intro H. rewrite !lt_iff. lra. Qed.

Lemma lt_weaker_lower (x a b : Q) :
  b <= a -> Py.lt a x = true -> Py.lt b x = true.
Proof. intro H. rewrite !lt_iff. lra. Qed.

(** The confidence stays 0 exactly when no indicator fires. *)
Lemma rubric_confidence_by_indicator
    (norm : FaceAdvanced.point -> Q) (lm : FaceAdvanced.Landmarks) :
  (indicator_fires norm lm = false -> snd (FaceAdvanced.rubric norm lm) == 0) /\
  (indicator_fires norm lm = true -> 0 < snd (FaceAdvanced.rubric norm lm)).
Proof.
  unfold indicator_fires, FaceAdvanced.rubric.
  destruct (FaceAdvanced.calculate_mouth_aspect_ratio norm _) as [mar downturn].
  cbn [fst snd].
  pose proof (below_weaker (FaceAdvanced.avg_ear norm lm) 0.20 0.25
                ltac:(discriminate)) as W1.
  pose proof (lt_weaker_upper (FaceAdvanced.avg_brow_dist norm lm) 15 20
                ltac:(discriminate)) as W2.
  pose proof (lt_weaker_lower downturn 5 2 ltac:(discriminate)) as W3.
  revert W1 W2 W3.
  destruct (FaceAdvanced.below (FaceAdvanced.avg_ear norm lm) 0.20),
           (FaceAdvanced.below (FaceAdvanced.avg_ear norm lm) 0.25),
           (Py.lt (FaceAdvanced.avg_brow_dist norm lm) 15),
           (Py.lt (FaceAdvanced.avg_brow_dist norm lm) 20),
           (Py.lt 5 downturn), (Py.lt 2 downturn),
           (Py.lt mar 0.3), (Py.lt (FaceAdvanced.jaw_variance lm) 50);
    intros W1 W2 W3;
    try (specialize (W1 eq_refl); discriminate);
    try (specialize (W2 eq_refl); discriminate);
    try (specialize (W3 eq_refl); discriminate);
    (split; intro H; [try discriminate H|try discriminate H]; reflexivity).
Qed.

(** C7.  For every landmark set the rubric leaves score and confidence
    equal.  When no indicator fires the confidence stays 0 and the feature
    score is 0; when some indicator fires the confidence is positive and the
    feature score is 100.  No other value is returned. *)
Theorem C7_feature_score_is_0_or_100
    (norm : FaceAdvanced.point -> Q) (lm : FaceAdvanced.Landmarks) :
  fst (FaceAdvanced.rubric norm lm) = snd (FaceAdvanced.rubric norm lm) /\
  (indicator_fires norm lm = false ->
     snd (FaceAdvanced.rubric norm lm) == 0 /\
     FaceAdvanced.analyze_facial_features norm (Some lm) == 0) /\
  (indicator_fires norm lm = true ->
     0 < snd (FaceAdvanced.rubric norm lm) /\
     FaceAdvanced.analyze_facial_features norm (Some lm) == 100) /\
  (FaceAdvanced.analyze_facial_features norm (Some lm) == 0 \/
   FaceAdvanced.analyze_facial_features norm (Some lm) == 100).
Proof.
  pose proof (rubric_score_is_confidence norm lm) as Hs.
  destruct (rubric_confidence_by_indicator norm lm) as [Hz Hp].
  rewrite analyze_facial_features_unfold, Hs.
  set (c := snd (FaceAdvanced.rubric norm lm)) in *.
  assert (Zero : c == 0 -> (if Py.lt 0 c then Py.min 100 (c / c * 100) else c) == 0).
  { intro H. assert (E : Py.lt 0 c = false) by (apply lt_false_iff; lra).
    now rewrite E. }
  assert (Pos : 0 < c -> (if Py.lt 0 c then Py.min 100 (c / c * 100) else c) == 100).
  { intro H. assert (E : Py.lt 0 c = true) by (apply lt_iff; lra).
    rewrite E. assert (D : c / c * 100 == 100) by (field; lra).
    rewrite min_keeps_first; [reflexivity|]. rewrite D. apply Qle_refl. }
  split; [reflexivity|]. split; [|split].
  - intro F. split; [|apply Zero]; now apply Hz.
  - intro F. split; [|apply Pos]; now apply Hp.
  - destruct (indicator_fires norm lm); [right; apply Pos|left; apply Zero];
      auto.
Qed.

(** On the open face no indicator fires and the score is 0; pulling the
    corners of the mouth down fires one and the score is 100. *)
Lemma C7_feature_score_witness :
  FaceAdvanced.analyze_facial_features taxicab (Some open_face) == 0 /\
  FaceAdvanced.analyze_facial_features taxicab (Some downturned_face) == 100.
Proof.
  split.
  - apply (proj1 (proj2 (C7_feature_score_is_0_or_100 taxicab open_face))).
    reflexivity.
  - apply (proj1 (proj2 (proj2
             (C7_feature_score_is_0_or_100 taxicab downturned_face)))).
    reflexivity.
Defined.

(** C6.  A sad prediction ([happy_prob > sad_prob] is false) made with
    landmarks has intensity 0.6 times the model intensity plus 0.4 times the
    feature score; the feature score of a landmark set whose rubric fired is
    the smaller of 100 and score over confidence times 100.  Without
    landmarks the feature scorer returns 50.0, and the intensity of a sad
    prediction is the model intensity alone. *)
Theorem C6_intensity_blend_and_landmark_fallback
    (norm : FaceAdvanced.point -> Q) (p : FaceAdvanced.predictions)
    (lm : FaceAdvanced.Landmarks) :
  FaceAdvanced.p_happy p * 100 <= FaceAdvanced.p_sad p * 100 ->
  (exists intensity,
     FaceAdvanced.predict_emotion norm (Some p) (Some lm)
       = ("sad"%string, intensity,
          FaceAdvanced.p_sad p * 100, FaceAdvanced.p_happy p * 100) /\
     intensity ==
       0.6 * (FaceAdvanced.p_intensity p * 100)
       + 0.4 * FaceAdvanced.analyze_facial_features norm (Some lm)) /\
  (0 < snd (FaceAdvanced.rubric norm lm) ->
     FaceAdvanced.analyze_facial_features norm (Some lm) ==
       Qmin 100 (fst (FaceAdvanced.rubric norm lm)
                 / snd (FaceAdvanced.rubric norm lm) * 100)) /\
  FaceAdvanced.analyze_facial_features norm None = 50.0 /\
  FaceAdvanced.predict_emotion norm (Some p) None
    = ("sad"%string, FaceAdvanced.p_intensity p * 100,
       FaceAdvanced.p_sad p * 100, FaceAdvanced.p_happy p * 100).
Proof.
  intro Hsad. apply lt_false_iff in Hsad.
  repeat split.
  - eexists. split.
    + unfold FaceAdvanced.predict_emotion. rewrite Hsad. reflexivity.
    + ring.
  - intro Hc. rewrite analyze_facial_features_unfold.
    apply lt_iff in Hc. rewrite Hc. apply py_min_is_Qmin.
  - unfold FaceAdvanced.predict_emotion. now rewrite Hsad.
Qed.

(** Model output sad 0.6, happy 0.4, intensity 0.5 on the face with the
    downturned mouth: 0.6 * 50 + 0.4 * 100 = 70. *)
Lemma C6_blend_witness :
  exists intensity,
    FaceAdvanced.predict_emotion taxicab
        (Some (FaceAdvanced.mkPredictions 0.6 0.4 0.5)) (Some downturned_face)
      = ("sad"%string, intensity, 0.6 * 100, 0.4 * 100) /\
    intensity == 70.
Proof.
  destruct (proj1 (C6_intensity_blend_and_landmark_fallback taxicab
                     (FaceAdvanced.mkPredictions 0.6 0.4 0.5) downturned_face
                     ltac:(discriminate)))
    as (intensity & E & H).
  exists intensity. split; [exact E|].
  rewrite H. reflexivity.
Defined.

(** * Further properties of the monitors *)

(** ** Scores of one sample in face.py *)

Lemma get_of_item {V : Type} (d : Py.dict V) (i : nat) (k : string) (v dflt : V) :
  NoDup (Py.keys d) -> nth_error d i = Some (k, v) -> Py.get d k dflt = v.
Proof.
  intros ND H. apply item_get; [exact ND|]. eapply nth_error_In; eauto.
Qed.

(** X1.  [predict_emotion_custom] fails exactly when the backend raises or
    hands out fewer than seven values.  Otherwise the dictionary has one
    entry per label, in the order of [EMOTIONS], and looking a label up
    gives one hundred times the model output at the label's index; so
    "fear", "sad" and "neutral", which [main] reads, are the outputs 2, 4
    and 6. *)
Theorem X1_predict_emotion_custom_lookup (backend : option (list Q)) :
  (Face.predict_emotion_custom backend = None <->
     backend = None \/
     exists p, backend = Some p /\ (length p < 7)%nat) /\
  (forall p scores,
     backend = Some p ->
     Face.predict_emotion_custom backend = Some scores ->
     Py.keys scores = Face.EMOTIONS /\
     (forall i, (i < 7)%nat ->
        Py.get scores (nth i Face.EMOTIONS EmptyString) 0 = nth i p 0 * 100) /\
     Py.get scores "fear" 0 = nth 2 p 0 * 100 /\
     Py.get scores "sad" 0 = nth 4 p 0 * 100 /\
     Py.get scores "neutral" 0 = nth 6 p 0 * 100).
Proof.
  split.
  - destruct backend as [p|]; simpl.
    + destruct (length p <? 7)%nat eqn:E.
      * split; [|reflexivity]. intros _. right. exists p.
        apply Nat.ltb_lt in E. auto.
      * split; [discriminate|]. intros [H|(q & [= <-] & H)]; [discriminate|].
        apply Nat.ltb_ge in E. lia.
    + split; auto.
  - intros p scores -> H.
    destruct (predict_emotion_custom_keys _ _ H) as [Hk Hn].
    assert (ND : NoDup (Py.keys scores)).
    { rewrite Hk. repeat constructor; simpl; intuition discriminate. }
    assert (G : forall i, (i < 7)%nat ->
              Py.get scores (nth i Face.EMOTIONS EmptyString) 0
                = nth i p 0 * 100).
    { intros i Hi. eapply get_of_item; [exact ND|]. now apply Hn. }
    split; [exact Hk|]. split; [exact G|].
    split; [apply (G 2%nat); lia|]. split; [apply (G 4%nat)|apply (G 6%nat)]; lia.
Qed.

(** A model output with sad at 0.5. *)
Lemma X1_lookup_witness :
  match Face.predict_emotion_custom (Some [0.1; 0; 0.2; 0.1; 0.5; 0; 0.1]) with
  | Some scores => Py.get scores "sad" 0 == 50
  | None => False
  end.
Proof.
  destruct (Face.predict_emotion_custom (Some [0.1; 0; 0.2; 0.1; 0.5; 0; 0.1]))
    as [scores|] eqn:E; [|discriminate E].
  destruct (proj2 (X1_predict_emotion_custom_lookup
                     (Some [0.1; 0; 0.2; 0.1; 0.5; 0; 0.1])) _ _ eq_refl E)
    as (_ & _ & _ & -> & _).
  reflexivity.
Defined.

Lemma max_emotion_in (scores : Py.dict Q) (k : string) (v : Q) :
  Face.max_emotion scores = Some (k, v) -> In (k, v) scores.
Proof.
  intro E.
  destruct (max_key_first_maximal Py.lt snd float_lt_trans float_lt_le_lt _ _ E)
    as (pre & post & -> & _). apply in_or_app. right. now left.
Qed.

Lemma get_dominant_emotion_defined (scores : Py.dict Q) :
  scores <> [] ->
  exists k v, Face.max_emotion scores = Some (k, v) /\
    Face.get_dominant_emotion scores
      = Some (Py.get Face.emotion_map k k, scores).
Proof.
  intro H. destruct (max_key_nonempty Py.lt snd _ H) as [[k v] E].
  exists k, v. split; [exact E|].
  unfold Face.get_dominant_emotion, Face.max_emotion. now rewrite E.
Qed.

(** X2.  For the scores of a model output, [get_dominant_emotion] returns
    one of the six labels happy, sad, angry, fearful, surprised, neutral.
    The label is "sad" exactly when the largest score is that of "sad": the
    renaming of disgust, fear and surprise neither creates nor hides a sad
    sample.  Each of the six labels has its own entry in the colour table of
    [draw_face_box], so the white default is not used. *)
Theorem X2_dominant_label_taxonomy (p : list Q) (scores : Py.dict Q) :
  Face.predict_emotion_custom (Some p) = Some scores ->
  exists k v label,
    Face.max_emotion scores = Some (k, v) /\
    Face.get_dominant_emotion scores = Some (label, scores) /\
    In label display_labels /\
    (label = "sad"%string <-> k = "sad"%string) /\
    (label = "angry"%string <-> k = "angry"%string \/ k = "disgust"%string) /\
    In (label, FaceDisplay.box_colour label) FaceDisplay.color_map.
Proof.
  intro H. destruct (predict_emotion_custom_keys _ _ H) as [Hk _].
  assert (Hne : scores <> []) by (intros ->; discriminate).
  destruct (get_dominant_emotion_defined scores Hne) as (k & v & E & G).
  exists k, v, (Py.get Face.emotion_map k k).
  split; [exact E|]. split; [exact G|].
  apply max_emotion_in in E. apply (in_map fst) in E.
  change (In k (Py.keys scores)) in E. rewrite Hk in E. simpl in E.
  destruct E as [<-|[<-|[<-|[<-|[<-|[<-|[<-|[]]]]]]]]; simpl;
    (split; [tauto|]);
    (split; [split; [discriminate || reflexivity | discriminate || reflexivity]|]);
    (split; [split; [intro; try discriminate; tauto
                    | intros [?|?]; try discriminate; reflexivity]|]);
    tauto.
Qed.

(** Disgust has the largest score: the sample is labelled angry. *)
Lemma X2_taxonomy_witness :
  match Face.predict_emotion_custom (Some [0.1; 0.6; 0; 0.1; 0.2; 0; 0]) with
  | Some scores =>
      exists label, Face.get_dominant_emotion scores = Some (label, scores) /\
                    In label display_labels
  | None => False
  end.
Proof.
  destruct (Face.predict_emotion_custom (Some [0.1; 0.6; 0; 0.1; 0.2; 0; 0]))
    as [scores|] eqn:E; [|discriminate E].
  destruct (X2_dominant_label_taxonomy _ _ E)
    as (k & v & label & _ & G & L & _).
  exists label. split; assumption.
Defined.

(** ** Adjusted score and bands *)

(** X3.  With a sadness score in [0, 100] and non-negative fear and neutral
    scores, the adjusted score of [classify_sadness_level] is never below
    the sadness score and never above 100. *)
Theorem X3_adjusted_score_between_sad_and_100 (sad fear neutral : Q) :
  0 <= sad <= 100 -> 0 <= fear -> 0 <= neutral ->
  sad <= Face.adjusted_score sad fear neutral <= 100.
Proof.
  intros Hs Hf Hn. unfold Face.adjusted_score.
  assert (M : forall x, sad <= x -> sad <= Py.min 100 x <= 100).
  { intros x Hx. split; [|apply min_le_left].
    unfold Py.min. destruct (Py.lt x 100); lra. }
  destruct (Py.lt 40 neutral && Py.lt 20 sad); [apply M; lra|].
  destruct (Py.lt 20 fear); [apply M; lra|lra].
Qed.

Lemma X3_adjusted_score_witness :
  30 <= Face.adjusted_score 30 25 0 <= 100.
Proof.
  apply X3_adjusted_score_between_sad_and_100;
    [split; discriminate|discriminate|discriminate].
Defined.

Lemma advanced_find_band_sound (levels : Py.dict (Q * Q)) (x : Q)
    (level : string) :
  FaceAdvanced.find_band levels x = Some level ->
  exists lo hi, In (level, (lo, hi)) levels /\ lo <= x /\ x < hi.
Proof.
  induction levels as [|[l [lo hi]] r IH]; simpl; [discriminate|].
  destruct (Py.le lo x && Py.lt x hi) eqn:E.
  - intros [= <-]. apply andb_true_iff in E as [E1 E2].
    apply le_iff in E1. apply lt_iff in E2.
    exists lo, hi. auto.
  - intro H. destruct (IH H) as (lo' & hi' & Hin & Hb).
    exists lo', hi'. auto.
Qed.

Lemma advanced_find_band_some_in_range (x : Q) :
  0 <= x -> x < 100 ->
  exists level, FaceAdvanced.find_band FaceAdvanced.SADNESS_LEVELS x = Some level.
Proof.
  intros H0 H100. rewrite advanced_find_band_cases.
  assert (E0 : Py.le 0 x = true) by (apply le_iff; lra).
  assert (E4 : Py.lt x 100 = true) by (apply lt_iff; lra).
  rewrite E0, E4. simpl.
  destruct (Py.lt x 35) eqn:A; [eauto|]. apply lt_false_iff in A.
  assert (E1 : Py.le 35 x = true) by (apply le_iff; lra).
  rewrite E1. simpl.
  destruct (Py.lt x 65) eqn:B; [eauto|]. apply lt_false_iff in B.
  assert (E2 : Py.le 65 x = true) by (apply le_iff; lra).
  rewrite E2. simpl. eauto.
Qed.

(** X4.  In [face.py], when the adjusted score lies in [0, 100), the level
    returned is the one band of the table whose range contains the adjusted
    score, and the second component returned is the adjusted score. *)
Theorem X4_face_level_is_the_band_of_the_score (sad fear neutral : Q) :
  0 <= Face.adjusted_score sad fear neutral ->
  Face.adjusted_score sad fear neutral < 100 ->
  snd (Face.classify_sadness_level sad fear neutral)
    = Face.adjusted_score sad fear neutral /\
  (exists lo hi,
     In (fst (Face.classify_sadness_level sad fear neutral), (lo, hi))
        Face.SADNESS_LEVELS /\
     lo <= Face.adjusted_score sad fear neutral < hi) /\
  (forall level lo hi,
     In (level, (lo, hi)) Face.SADNESS_LEVELS ->
     lo <= Face.adjusted_score sad fear neutral < hi ->
     level = fst (Face.classify_sadness_level sad fear neutral)).
Proof.
  intros H0 H100.
  destruct (face_classify_in_range sad fear neutral H0 H100)
    as (lo & hi & Hin & Hlo & Hhi & Hsnd).
  split; [exact Hsnd|]. split; [exists lo, hi; auto|].
  intros level lo' hi' Hin' [Hlo' Hhi'].
  set (a := Face.adjusted_score sad fear neutral) in *.
  set (l := fst (Face.classify_sadness_level sad fear neutral)) in *.
  simpl in Hin, Hin'.
  destruct Hin as [E|[E|[E|[]]]]; injection E as <- <- <-;
    destruct Hin' as [E'|[E'|[E'|[]]]]; injection E' as <- <- <-;
    try reflexivity; exfalso; lra.
Qed.

(** Sadness 30 with fear 25: the adjusted score 37.5 is in the band upset. *)
Lemma X4_face_level_witness :
  snd (Face.classify_sadness_level 30 25 0) = Face.adjusted_score 30 25 0.
Proof.
  apply X4_face_level_is_the_band_of_the_score; [discriminate|reflexivity].
Defined.

(** X5.  In [face_advanced.py], for an intensity in [0, 100) the level
    returned is the second word of the key of the one band whose range
    contains the intensity: upset below 35, melancholic from 35 and below
    65, depressed from 65. *)
Theorem X5_advanced_level_is_the_band_of_the_intensity (intensity : Q) :
  0 <= intensity -> intensity < 100 ->
  (exists key lo hi,
     In (key, (lo, hi)) FaceAdvanced.SADNESS_LEVELS /\
     lo <= intensity < hi /\
     FaceAdvanced.classify_sadness_level intensity
       = FaceAdvanced.level_name key) /\
  (intensity < 35 ->
     FaceAdvanced.classify_sadness_level intensity = "upset"%string) /\
  (35 <= intensity -> intensity < 65 ->
     FaceAdvanced.classify_sadness_level intensity = "melancholic"%string) /\
  (65 <= intensity ->
     FaceAdvanced.classify_sadness_level intensity = "depressed"%string).
Proof.
  intros H0 H100. unfold FaceAdvanced.classify_sadness_level.
  destruct (advanced_find_band_some_in_range intensity H0 H100) as [key E].
  rewrite E.
  destruct (advanced_find_band_sound _ _ _ E) as (lo & hi & Hin & Hlo & Hhi).
  split; [exists key, lo, hi; auto|].
  simpl in Hin.
  destruct Hin as [F|[F|[F|[]]]]; injection F as <- <- <-;
    (split; [intro; (reflexivity || (exfalso; lra))|]);
    (split; [intros; (reflexivity || (exfalso; lra))|]);
    intro; (reflexivity || (exfalso; lra)).
Qed.

(** The boundary 35 belongs to the middle band. *)
Lemma X5_advanced_level_witness :
  FaceAdvanced.classify_sadness_level 35 = "melancholic"%string.
Proof.
  apply (proj1 (proj2 (proj2
           (X5_advanced_level_is_the_band_of_the_intensity 35
              ltac:(discriminate) ltac:(reflexivity)))));
    [discriminate|reflexivity].
Defined.

Lemma severity_of_advanced_level (x : Q) :
  0 <= x -> x < 100 ->
  severity (FaceAdvanced.classify_sadness_level x) =
    if Py.lt x 35 then 0%nat else if Py.lt x 65 then 1%nat else 2%nat.
Proof.
  intros H0 H100. unfold FaceAdvanced.classify_sadness_level.
  rewrite advanced_find_band_cases.
  assert (E0 : Py.le 0 x = true) by (apply le_iff; lra).
  assert (E4 : Py.lt x 100 = true) by (apply lt_iff; lra).
  rewrite E0, E4. simpl.
  destruct (Py.lt x 35) eqn:A; [reflexivity|]. apply lt_false_iff in A.
  assert (E1 : Py.le 35 x = true) by (apply le_iff; lra).
  rewrite E1. simpl.
  destruct (Py.lt x 65) eqn:B; [reflexivity|]. apply lt_false_iff in B.
  assert (E2 : Py.le 65 x = true) by (apply le_iff; lra).
  rewrite E2. reflexivity.
Qed.

Lemma severity_of_face_band (x : Q) (level : string) :
  0 <= x -> x < 100 ->
  Face.find_band Face.SADNESS_LEVELS x = Some level ->
  severity level =
    if Py.lt x 40 then 0%nat else if Py.lt x 70 then 1%nat else 2%nat.
Proof.
  intros H0 H100. rewrite face_find_band_cases.
  assert (E0 : Py.le 0 x = true) by (apply le_iff; lra).
  assert (E4 : Py.lt x 100 = true) by (apply lt_iff; lra).
  rewrite E0, E4. simpl.
  destruct (Py.lt x 40) eqn:A; [now intros [= <-]|]. apply lt_false_iff in A.
  assert (E1 : Py.le 40 x = true) by (apply le_iff; lra).
  rewrite E1. simpl.
  destruct (Py.lt x 70) eqn:B; [now intros [= <-]|]. apply lt_false_iff in B.
  assert (E2 : Py.le 70 x = true) by (apply le_iff; lra).
  rewrite E2. simpl. now intros [= <-].
Qed.

(** X6.  Below 100 both lookups are monotone: of two scores in [0, 100)
    the larger one never gets the milder level (upset, then melancholic,
    then depressed). *)
Theorem X6_levels_are_monotone_below_100 (x y : Q) :
  0 <= x -> x <= y -> y < 100 ->
  (severity (FaceAdvanced.classify_sadness_level x)
     <= severity (FaceAdvanced.classify_sadness_level y))%nat /\
  (forall lx ly,
     Face.find_band Face.SADNESS_LEVELS x = Some lx ->
     Face.find_band Face.SADNESS_LEVELS y = Some ly ->
     (severity lx <= severity ly)%nat).
Proof.
  intros H0 Hxy H100. split.
  - rewrite !severity_of_advanced_level by lra.
    destruct (Py.lt x 35) eqn:A, (Py.lt y 35) eqn:B,
             (Py.lt x 65) eqn:C, (Py.lt y 65) eqn:D;
      try lia; exfalso;
      rewrite ?lt_iff, ?lt_false_iff in *; lra.
  - intros lx ly Ex Ey.
    rewrite (severity_of_face_band x lx), (severity_of_face_band y ly)
      by (assumption || lra).
    destruct (Py.lt x 40) eqn:A, (Py.lt y 40) eqn:B,
             (Py.lt x 70) eqn:C, (Py.lt y 70) eqn:D;
      try lia; exfalso;
      rewrite ?lt_iff, ?lt_false_iff in *; lra.
Qed.

Lemma X6_monotone_witness :
  (severity (FaceAdvanced.classify_sadness_level 34)
     <= severity (FaceAdvanced.classify_sadness_level 66))%nat.
Proof.
  exact (proj1 (X6_levels_are_monotone_below_100 34 66
                  ltac:(discriminate) ltac:(discriminate) ltac:(reflexivity))).
Defined.

(** ** Counts and means of a window *)

Lemma count_step_sum (d : Py.dict nat) (k : string) :
  list_sum (map snd (Window.count_step d k)) = S (list_sum (map snd d)).
Proof.
  unfold Window.count_step.
  induction d as [|[k' v'] r IH]; simpl; [reflexivity|].
  destruct (String.eqb k' k) eqn:E; simpl.
  - lia.
  - rewrite IH. lia.
Qed.

Lemma tally_sum (labels : list string) :
  list_sum (map snd (Window.tally labels)) = length labels.
Proof.
  induction labels as [|x p IH] using rev_ind; [reflexivity|].
  rewrite tally_snoc, count_step_sum, IH, length_app. simpl. lia.
Qed.

Lemma total_from (xs : list Q) (a : Q) :
  fold_left Qplus xs a == a + Window.total xs.
Proof.
  unfold Window.total. revert a.
  induction xs as [|x r IH]; intro a; simpl.
  - ring.
  - rewrite (IH (a + x)), (IH (0 + x)). ring.
Qed.

Lemma total_cons (x : Q) (xs : list Q) :
  Window.total (x :: xs) == x + Window.total xs.
Proof.
  unfold Window.total at 1. simpl. rewrite total_from. ring.
Qed.

Lemma len_cons {A : Type} (x : A) (l : list A) :
  Window.len (x :: l) == 1 + Window.len l.
Proof.
  unfold Window.len. simpl length. rewrite Nat2Z.inj_succ.
  unfold Z.succ. rewrite inject_Z_plus. ring.
Qed.

Lemma len_nonneg {A : Type} (l : list A) : 0 <= Window.len l.
Proof.
  unfold Window.len. change 0 with (inject_Z 0).
  rewrite <- Zle_Qle. lia.
Qed.

Lemma total_bounds (xs : list Q) (lo hi : Q) :
  (forall x, In x xs -> lo <= x <= hi) ->
  lo * Window.len xs <= Window.total xs <= hi * Window.len xs.
Proof.
  induction xs as [|x r IH]; intro H.
  - change (Window.total []) with 0. change (Window.len (@nil Q)) with 0. lra.
  - rewrite total_cons, len_cons.
    destruct (H x (or_introl eq_refl)) as [H1 H2].
    destruct IH as [I1 I2]; [intros y Hy; apply H; now right|].
    lra.
Qed.

Lemma mean_bounds (xs : list Q) (lo hi : Q) :
  xs <> [] ->
  (forall x, In x xs -> lo <= x <= hi) ->
  lo <= Window.total xs / Window.len xs <= hi.
Proof.
  intros Hne H. destruct (total_bounds xs lo hi H) as [H1 H2].
  assert (Hn : 0 < Window.len xs).
  { destruct xs as [|x r]; [congruence|].
    rewrite len_cons. pose proof (len_nonneg r). lra. }
  split.
  - apply Qle_shift_div_l; assumption.
  - apply Qle_shift_div_r; assumption.
Qed.

Lemma len_map {A B : Type} (f : A -> B) (l : list A) :
  Window.len (map f l) = Window.len l.
Proof. unfold Window.len. now rewrite length_map. Qed.

(** X7.  A row [face.py] writes describes the window it closes: the sample
    count is the number of samples of the window, the label counts add up to
    it, every label counted occurs at least once and none more often than
    the primary emotion, which is the label of a sample of the window; the
    start is the start of the window. *)
Theorem X7_row_describes_its_window
    (now t_reset : Q) (st : Face.state) (r : Face.row) :
  snd (Face.flush now t_reset st) = Some r ->
  Face.r_window_start r = Face.window_start st /\
  Face.r_samples_collected r = length (Face.window_emotions st) /\
  (0 < Face.r_samples_collected r)%nat /\
  list_sum (map snd (Face.r_emotion_scores r)) = Face.r_samples_collected r /\
  In (Face.r_primary_emotion r)
     (map Face.e_emotion (Face.window_emotions st)) /\
  (forall label n,
     In (label, n) (Face.r_emotion_scores r) ->
     n = count_occ string_dec
           (map Face.e_emotion (Face.window_emotions st)) label /\
     (1 <= n <= Py.get (Face.r_emotion_scores r)
                       (Face.r_primary_emotion r) 0)%nat).
Proof.
  unfold Face.flush.
  destruct (Py.le Face.AGGREGATION_WINDOW (now - Face.window_start st));
    [|discriminate].
  simpl. unfold Face.summary.
  destruct (Face.window_emotions st) as [|e es] eqn:E; [discriminate|].
  set (labels := map Face.e_emotion (e :: es)).
  destruct (Window.dominant_of (Window.tally labels)) as [d|] eqn:D;
    [|discriminate].
  destruct (Face.sadness_summary _) as [sl si]. intros [= <-]. simpl.
  destruct (dominant_first_seen labels d D) as (Hin & Hmax & _).
  repeat split.
  - lia.
  - rewrite tally_sum. unfold labels. now rewrite length_map.
  - exact Hin.
  - now apply tally_item in H.
  - apply tally_item in H as [-> H].
    apply (count_occ_In string_dec) in H. lia.
  - apply tally_item in H as [-> _]. rewrite tally_get. apply Hmax.
Qed.

(** Three samples, two of them sad, in a window opened at 0. *)
Lemma X7_row_witness :
  match snd (Face.flush 30 31
               (Face.mkState
                  [Face.mkEntry "sad" []; Face.mkEntry "happy" [];
                   Face.mkEntry "sad" []]
                  [] 0 0 "sad" None [])) with
  | Some r => Face.r_samples_collected r = 3%nat
  | None => False
  end.
Proof.
  destruct (snd (Face.flush 30 31 _)) as [r|] eqn:E; [|discriminate E].
  rewrite (proj1 (proj2 (X7_row_describes_its_window _ _ _ _ E))).
  reflexivity.
Defined.

(** ** Runs of the loop of face.py *)

Lemma custom_scores_get (p : list Q) (scores : Py.dict Q) (i : nat) :
  Face.predict_emotion_custom (Some p) = Some scores -> (i < 7)%nat ->
  Py.get scores (nth i Face.EMOTIONS EmptyString) 0 = nth i p 0 * 100.
Proof.
  intros H Hi. destruct (predict_emotion_custom_keys _ _ H) as [Hk Hn].
  eapply get_of_item; [|now apply Hn].
  rewrite Hk. repeat constructor; simpl; intuition discriminate.
Qed.

Lemma custom_scores_length (p : list Q) (scores : Py.dict Q) :
  Face.predict_emotion_custom (Some p) = Some scores -> (7 <= length p)%nat.
Proof.
  unfold Face.predict_emotion_custom.
  destruct (length p <? length Face.EMOTIONS)%nat eqn:E; [discriminate|].
  intros _. apply Nat.ltb_ge in E. exact E.
Qed.

Lemma nth_in_range (p : list Q) (i : nat) :
  Forall (fun x => 0 <= x <= 1) p -> (i < length p)%nat ->
  0 <= nth i p 0 * 100 <= 100.
Proof.
  intros F Hi. rewrite Forall_forall in F.
  destruct (F (nth i p 0) (nth_In p 0 Hi)). lra.
Qed.

(** The label of a sample of the custom model, with what is known of the
    item [max] selected. *)
Lemma custom_dominant (p : list Q) (scores : Py.dict Q) :
  Face.predict_emotion_custom (Some p) = Some scores ->
  exists k v,
    Face.get_dominant_emotion scores
      = Some (Py.get Face.emotion_map k k, scores) /\
    In (Py.get Face.emotion_map k k) display_labels /\
    (Py.get Face.emotion_map k k = "sad"%string ->
       k = "sad"%string /\ Py.get scores "sad" 0 = v /\
       nth 0 p 0 * 100 < v).
Proof.
  intro H. destruct (predict_emotion_custom_keys _ _ H) as [Hk Hn].
  assert (Hne : scores <> []) by (intros ->; discriminate).
  destruct (max_key_nonempty Py.lt snd _ Hne) as [[k v] E].
  exists k, v. split.
  { unfold Face.get_dominant_emotion, Face.max_emotion. now rewrite E. }
  destruct (max_key_first_maximal Py.lt snd float_lt_trans float_lt_le_lt _ _ E)
    as (pre & post & Eq & Hpre & _).
  assert (Hin : In (k, v) scores)
    by (rewrite Eq; apply in_or_app; right; now left).
  assert (ND : NoDup (Py.keys scores)).
  { rewrite Hk. repeat constructor; simpl; intuition discriminate. }
  pose proof (in_map fst _ _ Hin) as Hkey.
  change (In k (Py.keys scores)) in Hkey. rewrite Hk in Hkey. simpl in Hkey.
  split.
  - destruct Hkey as [<-|[<-|[<-|[<-|[<-|[<-|[<-|[]]]]]]]]; simpl; tauto.
  - intro Hsad.
    assert (Ek : k = "sad"%string).
    { destruct Hkey as [<-|[<-|[<-|[<-|[<-|[<-|[<-|[]]]]]]]];
        simpl in Hsad; try discriminate; reflexivity. }
    subst k. split; [reflexivity|]. split.
    + now apply item_get.
    + pose proof (Hn 0%nat ltac:(lia)) as H0. simpl in H0.
      destruct pre as [|x pre'].
      * rewrite Eq in H0. simpl in H0. discriminate.
      * rewrite Eq in H0. simpl in H0. injection H0 as ->.
        specialize (Hpre _ (or_introl eq_refl)). simpl in Hpre.
        now apply lt_iff in Hpre.
Qed.

Lemma face_level_names (sad fear neutral : Q) :
  In (fst (Face.classify_sadness_level sad fear neutral)) level_names.
Proof. apply face_classify_level_in_table. Qed.

Lemma face_intensity_bounds (sad fear neutral : Q) :
  0 < sad -> sad <= 100 -> 0 <= fear -> 0 <= neutral ->
  0 < snd (Face.classify_sadness_level sad fear neutral) <= 100.
Proof.
  intros Hs Hs' Hf Hn. unfold Face.classify_sadness_level.
  destruct (adjusted_score_range sad fear neutral) as [_ Hhi];
    [lra|lra|lra|].
  assert (Hlo : sad <= Face.adjusted_score sad fear neutral).
  { unfold Face.adjusted_score.
    assert (M : forall x, sad <= x -> sad <= Py.min 100 x).
    { intros x Hx. unfold Py.min. destruct (Py.lt x 100); lra. }
    destruct (Py.lt 40 neutral && Py.lt 20 sad); [apply M; lra|].
    destruct (Py.lt 20 fear); [apply M; lra|lra]. }
  destruct (Face.find_band _ _); simpl; lra.
Qed.

(** What one sampling step of [face.py] does to the state. *)
Lemma face_sample_cases (now : Q) (faces : nat) (backend : option (list Q))
    (st : Face.state) :
  let st' := Face.sample now faces (Face.predict_emotion_custom backend) st in
  st' = st \/
  st' = Face.mkState (Face.window_emotions st) (Face.window_sadness_data st)
          (Face.window_start st) now (Face.current_emotion st)
          (Face.current_sadness_level st) (Face.current_scores st) \/
  (exists label scores,
     label <> "sad"%string /\ In label display_labels /\
     st' = Face.mkState (Face.window_emotions st ++ [Face.mkEntry label scores])
             (Face.window_sadness_data st) (Face.window_start st) now
             label None scores) \/
  (exists scores level intensity,
     In level level_names /\
     (match backend with
      | Some p => Forall (fun x => 0 <= x <= 1) p
      | None => True
      end -> 0 < intensity <= 100) /\
     st' = Face.mkState
             (Face.window_emotions st ++ [Face.mkEntry "sad" scores])
             (Face.window_sadness_data st ++ [Face.mkSad level intensity])
             (Face.window_start st) now "sad" (Some level) scores).
Proof.
  unfold Face.sample.
  destruct (Py.le Face.SAMPLE_INTERVAL (now - Face.last_sample_time st)
            && (0 <? faces)%nat); [|now left].
  destruct backend as [p|]; [|right; now left].
  destruct (Face.predict_emotion_custom (Some p)) as [scores|] eqn:E;
    [|right; now left].
  pose proof (custom_scores_length _ _ E) as Hlen.
  destruct (custom_dominant _ _ E) as (k & v & G & L & S).
  destruct scores as [|item items]; [discriminate (proj1 (predict_emotion_custom_keys _ _ E))|].
  rewrite G.
  destruct (String.eqb (Py.get Face.emotion_map k k) "sad") eqn:B.
  - apply String.eqb_eq in B. right; right; right.
    destruct (S B) as (-> & Hv & Hpos). rewrite B.
    destruct (Face.classify_sadness_level _ _ _) as [level intensity] eqn:C.
    exists (item :: items), level, intensity. split; [|split; [|reflexivity]].
    + change level with (fst (level, intensity)). rewrite <- C.
      apply face_level_names.
    + intro F. change intensity with (snd (level, intensity)). rewrite <- C.
      pose proof (custom_scores_get _ _ 4 E ltac:(lia)) as G4.
      pose proof (custom_scores_get _ _ 2 E ltac:(lia)) as G2.
      pose proof (custom_scores_get _ _ 6 E ltac:(lia)) as G6.
      simpl nth in G4, G2, G6 |- *.
      pose proof (nth_in_range p 0 F ltac:(lia)) as R0.
      pose proof (nth_in_range p 4 F ltac:(lia)) as R4.
      pose proof (nth_in_range p 2 F ltac:(lia)) as R2.
      pose proof (nth_in_range p 6 F ltac:(lia)) as R6.
      rewrite <- Hv, G4 in Hpos.
      rewrite G4, G2, G6. apply face_intensity_bounds; lra.
  - apply String.eqb_neq in B. right; right; left.
    exists (Py.get Face.emotion_map k k), (item :: items). auto.
Qed.

Lemma face_init_ok (t0 : Q) :
  face_window_ok (Face.init t0) /\ face_intensities_ok (Face.init t0).
Proof.
  unfold face_window_ok, face_intensities_ok. simpl.
  split; [|constructor].
  split; [reflexivity|]. split; [constructor|]. split; [constructor|].
  split; [congruence|tauto].
Qed.

Lemma count_occ_snoc (l : list string) (x k : string) :
  count_occ string_dec (l ++ [x]) k =
    (count_occ string_dec l k + if string_dec x k then 1 else 0)%nat.
Proof. rewrite count_occ_app. simpl. now destruct (string_dec x k). Qed.

Lemma face_sample_ok (now : Q) (faces : nat) (backend : option (list Q))
    (st : Face.state) :
  face_window_ok st ->
  face_window_ok
    (Face.sample now faces (Face.predict_emotion_custom backend) st).
Proof.
  intros (Hc & Hl & He & Hd & Hcur).
  destruct (face_sample_cases now faces backend st)
    as [->|[->|[(label & scores & Hn & Hin & ->)
               |(scores & level & intensity & Hin & _ & ->)]]];
    unfold face_window_ok; simpl.
  - auto.
  - auto.
  - rewrite map_app. simpl map. rewrite count_occ_snoc.
    destruct (string_dec label "sad"); [contradiction|].
    split; [lia|]. split; [exact Hl|]. split.
    + apply Forall_app. split; [exact He|]. constructor; [exact Hin|constructor].
    + split; [congruence|exact Hin].
  - rewrite map_app. simpl map. rewrite count_occ_snoc, length_app.
    destruct (string_dec "sad" "sad"); [|congruence].
    split; [simpl; lia|]. split.
    + apply Forall_app. split; [exact Hl|]. constructor; [exact Hin|constructor].
    + split.
      * apply Forall_app. split; [exact He|].
        constructor; [simpl; tauto|constructor].
      * split; [reflexivity|simpl; tauto].
Qed.

Lemma face_sample_intensities (now : Q) (faces : nat)
    (backend : option (list Q)) (st : Face.state) :
  match backend with
  | Some p => Forall (fun x => 0 <= x <= 1) p
  | None => True
  end ->
  face_intensities_ok st ->
  face_intensities_ok
    (Face.sample now faces (Face.predict_emotion_custom backend) st).
Proof.
  intros P H.
  destruct (face_sample_cases now faces backend st)
    as [->|[->|[(label & scores & Hn & Hin & ->)
               |(scores & level & intensity & Hin & Hi & ->)]]];
    unfold face_intensities_ok; simpl; auto.
  apply Forall_app. split; [exact H|]. repeat constructor; now apply Hi.
Qed.

Lemma face_flush_ok (now t_reset : Q) (st : Face.state) :
  face_window_ok st ->
  face_window_ok (fst (Face.flush now t_reset st)).
Proof.
  intros (Hc & Hl & He & Hd & Hcur). unfold Face.flush.
  destruct (Py.le _ _); unfold face_window_ok; simpl; auto.
Qed.

Lemma face_flush_intensities (now t_reset : Q) (st : Face.state) :
  face_intensities_ok st ->
  face_intensities_ok (fst (Face.flush now t_reset st)).
Proof.
  intro H. unfold Face.flush.
  destruct (Py.le _ _); unfold face_intensities_ok; simpl; auto.
Qed.

Lemma total_pos (xs : list Q) :
  xs <> [] -> (forall x, In x xs -> 0 < x) -> 0 < Window.total xs.
Proof.
  induction xs as [|x r IH]; [congruence|]. intros _ H.
  rewrite total_cons. pose proof (H x (or_introl eq_refl)).
  destruct r as [|y r'].
  - change (Window.total []) with 0. lra.
  - assert (0 < Window.total (y :: r')).
    { apply IH; [discriminate|]. intros z Hz. apply H. now right. }
    lra.
Qed.

Lemma level_names_truthy (l : string) :
  In l level_names -> Window.level_cell (Some l) = Window.Str l.
Proof.
  intros [<-|[<-|[<-|[]]]]; reflexivity.
Qed.

Lemma sadness_cells_of_data (levels : list string) (xs : list Q) :
  xs <> [] -> length levels = length xs ->
  Forall (fun l => In l level_names) levels ->
  Forall (fun x => 0 < x <= 100) xs ->
  exists l x,
    Window.level_cell (Window.dominant levels) = Window.Str l /\
    In l level_names /\
    Window.intensity_cell (Some (Window.total xs / Window.len xs))
      = Window.Fixed2 x /\
    0 < x <= 100.
Proof.
  intros Hxs Hlen Hl Hx.
  assert (Hne : levels <> []).
  { intros ->. destruct xs; [congruence|discriminate]. }
  destruct (dominant_defined levels Hne) as [d Hd]. rewrite Hd.
  destruct (dominant_first_seen levels d Hd) as (Hin & _).
  rewrite Forall_forall in Hl, Hx.
  assert (Hn : 0 < Window.len xs).
  { destruct xs as [|x r]; [congruence|].
    rewrite len_cons. pose proof (len_nonneg r). lra. }
  assert (Hpos : 0 < Window.total xs / Window.len xs).
  { apply Qlt_shift_div_l; [exact Hn|]. rewrite Qmult_0_l.
    apply total_pos; [exact Hxs|]. intros y Hy. now apply Hx. }
  assert (Hle : Window.total xs / Window.len xs <= 100).
  { apply (mean_bounds xs 0 100 Hxs). intros y Hy.
    destruct (Hx y Hy). lra. }
  exists d, (Window.total xs / Window.len xs). repeat split.
  - apply level_names_truthy. now apply Hl.
  - now apply Hl.
  - apply (proj2 (intensity_cell_some _)). lra.
  - exact Hpos.
  - exact Hle.
Qed.

Lemma face_flush_row_ok (now t_reset : Q) (st : Face.state) (r : Face.row) :
  face_window_ok st -> face_intensities_ok st ->
  snd (Face.flush now t_reset st) = Some r ->
  face_row_ok r.
Proof.
  intros (Hc & Hl & _) Hi. unfold face_intensities_ok in Hi.
  unfold Face.flush.
  destruct (Py.le _ _); [|discriminate].
  cbn [snd]. unfold Face.summary.
  destruct (Face.window_emotions st) as [|e es]; [discriminate|].
  destruct (Window.dominant_of _); [|discriminate].
  unfold Face.sadness_summary, face_row_ok.
  destruct (Face.window_sadness_data st) as [|s0 data] eqn:E.
  - intros [= <-].
    cbn [Face.r_emotion_scores Face.r_sadness_level Face.r_sadness_intensity].
    change (Face.e_emotion e :: map Face.e_emotion es)
      with (map Face.e_emotion (e :: es)).
    left. rewrite tally_get, <- Hc. auto.
  - intros [= <-].
    cbn [Face.r_emotion_scores Face.r_sadness_level Face.r_sadness_intensity].
    change (Face.e_emotion e :: map Face.e_emotion es)
      with (map Face.e_emotion (e :: es)).
    right. rewrite tally_get, <- Hc. split; [simpl; lia|].
    rewrite <- (len_map Face.s_intensity).
    apply sadness_cells_of_data.
    + discriminate.
    + simpl. now rewrite !length_map.
    + try change (Face.s_level s0 :: map Face.s_level data)
        with (map Face.s_level (s0 :: data)).
      apply Forall_map. exact Hl.
    + try change (Face.s_intensity s0 :: map Face.s_intensity data)
        with (map Face.s_intensity (s0 :: data)).
      apply Forall_map. exact Hi.
Qed.

Lemma face_run_ok (frames : list FaceRun.frame) (st : Face.state) :
  face_window_ok st ->
  face_window_ok (fst (FaceRun.run frames st)).
Proof.
  revert st. induction frames as [|f r IH]; intros st H; [exact H|].
  simpl. unfold FaceRun.step, Face.step.
  destruct (Face.flush _ _ _) as [st' out] eqn:F.
  specialize (IH st'). destruct (FaceRun.run r st') as [st'' rows].
  simpl in *. apply IH.
  change st' with (fst (st', out)). rewrite <- F.
  apply face_flush_ok, face_sample_ok, H.
Qed.

Lemma face_run_rows_ok (frames : list FaceRun.frame) (st : Face.state) :
  Forall probabilities frames ->
  face_window_ok st -> face_intensities_ok st ->
  forall r, In r (snd (FaceRun.run frames st)) -> face_row_ok r.
Proof.
  revert st. induction frames as [|f fs IH]; intros st P H Hi r;
    [intros []|].
  inversion P as [|? ? Pf Pfs]; subst.
  simpl. unfold FaceRun.step, Face.step.
  set (st1 := Face.sample (FaceRun.f_now f) (FaceRun.f_faces f)
                (Face.predict_emotion_custom (FaceRun.f_backend f)) st).
  assert (H1 : face_window_ok st1) by now apply face_sample_ok.
  assert (Hi1 : face_intensities_ok st1)
    by (apply face_sample_intensities; assumption).
  destruct (Face.flush (FaceRun.f_now f) (FaceRun.f_reset f) st1)
    as [st' out] eqn:F.
  assert (H2 : face_window_ok st')
    by (change st' with (fst (st', out)); rewrite <- F;
        now apply face_flush_ok).
  assert (Hi2 : face_intensities_ok st')
    by (change st' with (fst (st', out)); rewrite <- F;
        now apply face_flush_intensities).
  specialize (IH st' Pfs H2 Hi2 r).
  destruct (FaceRun.run fs st') as [st'' rows]. simpl in *.
  destruct out as [row|]; [|exact IH].
  intros [<-|Hr]; [|now apply IH].
  apply (face_flush_row_ok (FaceRun.f_now f) (FaceRun.f_reset f) st1);
    [exact H1|exact Hi1|now rewrite F].
Qed.

(** X9.  However the loop of [face.py] has run from its start, the two
    buffers and the display agree: the sad-sample list has one entry per
    sample of the window labelled sad, every level in it is upset,
    melancholic or depressed, every label in the window is one of the six
    display labels, and a sadness level is displayed only while the current
    emotion is sad. *)
Theorem X9_face_buffers_agree_along_a_run
    (frames : list FaceRun.frame) (t0 : Q) :
  face_window_ok (fst (FaceRun.run frames (Face.init t0))).
Proof. apply face_run_ok, face_init_ok. Qed.

(** X10.  When the custom model hands out probabilities, every row the
    loop of [face.py] writes has "N/A" in both sadness columns if no sample
    of its window was sad, and otherwise a level name and a formatted mean
    intensity greater than 0 and at most 100: in this monitor a window
    with a sad sample never gets "N/A". *)
Theorem X10_face_rows_show_sadness_iff_a_sample_was_sad
    (frames : list FaceRun.frame) (t0 : Q) (r : Face.row) :
  Forall probabilities frames ->
  In r (snd (FaceRun.run frames (Face.init t0))) ->
  face_row_ok r.
Proof.
  intros P Hr.
  apply (face_run_rows_ok frames (Face.init t0) P); [apply face_init_ok..|exact Hr].
Qed.

(** One frame 30 seconds after the start: a sad face (sad 0.7) is sampled
    and the window is closed; the row has level depressed and mean 70. *)
Lemma X10_face_row_witness :
  match snd (FaceRun.run
               [FaceRun.mkFrame 30 31 1 (Some [0.1; 0; 0.1; 0.1; 0.7; 0; 0])]
               (Face.init 0)) with
  | [r] => face_row_ok r /\
           Face.r_sadness_level r = Window.Str "depressed"
  | _ => False
  end.
Proof.
  destruct (snd (FaceRun.run _ _)) as [|r [|r' rs]] eqn:E;
    try discriminate E.
  split.
  - apply (X10_face_rows_show_sadness_iff_a_sample_was_sad
             [FaceRun.mkFrame 30 31 1 (Some [0.1; 0; 0.1; 0.1; 0.7; 0; 0])] 0).
    + repeat constructor; discriminate.
    + rewrite E. now left.
  - injection E as <-. reflexivity.
Defined.

Lemma face_sample_clock (now : Q) (faces : nat) (backend : option (list Q))
    (st : Face.state) :
  Face.SAMPLE_INTERVAL <= now - Face.last_sample_time st -> (0 < faces)%nat ->
  Face.last_sample_time
    (Face.sample now faces (Face.predict_emotion_custom backend) st) = now.
Proof.
  intros Ht Hf. unfold Face.sample.
  apply le_iff in Ht. apply Nat.ltb_lt in Hf. rewrite Ht, Hf. simpl andb.
  cbv iota.
  destruct backend as [p|]; [|reflexivity].
  destruct (Face.predict_emotion_custom (Some p)) as [scores|] eqn:E;
    [|reflexivity].
  destruct (custom_dominant _ _ E) as (k & v & G & _).
  destruct scores as [|item items]; [reflexivity|].
  rewrite G.
  destruct (String.eqb _ "sad"); [|reflexivity].
  now destruct (Face.classify_sadness_level _ _ _).
Qed.

(** X11.  In [face.py] a tick that attempts a sample, whether the
    classification succeeds or fails, restarts the sampling clock: after
    it, and after the window check of the same iteration, a frame that
    arrives less than SAMPLE_INTERVAL later is not sampled and leaves the
    state as it is. *)
Theorem X11_face_samples_at_most_once_per_interval
    (st : Face.state) (now1 t_reset now2 : Q) (faces1 faces2 : nat)
    (backend1 backend2 : option (list Q)) :
  Face.SAMPLE_INTERVAL <= now1 - Face.last_sample_time st ->
  (0 < faces1)%nat ->
  now2 - now1 < Face.SAMPLE_INTERVAL ->
  Face.last_sample_time
    (fst (Face.step now1 t_reset faces1
            (Face.predict_emotion_custom backend1) st)) = now1 /\
  Face.sample now2 faces2 (Face.predict_emotion_custom backend2)
    (fst (Face.step now1 t_reset faces1
            (Face.predict_emotion_custom backend1) st))
  = fst (Face.step now1 t_reset faces1
           (Face.predict_emotion_custom backend1) st).
Proof.
  intros Ht Hf Hlt.
  pose proof (face_sample_clock now1 faces1 backend1 st Ht Hf) as Hc.
  assert (L : Face.last_sample_time
                (fst (Face.step now1 t_reset faces1
                        (Face.predict_emotion_custom backend1) st)) = now1).
  { unfold Face.step, Face.flush. destruct (Py.le _ _); simpl; exact Hc. }
  split; [exact L|].
  unfold Face.sample at 1. rewrite L.
  assert (E : Py.le Face.SAMPLE_INTERVAL (now2 - now1) = false)
    by (apply le_false_iff; exact Hlt).
  now rewrite E.
Qed.

(** A failed classification at 1.0 s; the frame at 1.2 s is not sampled. *)
Lemma X11_rate_witness :
  Face.sample 1.2 1 (Face.predict_emotion_custom (Some [0; 0; 0; 0; 1; 0; 0]))
    (fst (Face.step 1 1 1 (Face.predict_emotion_custom None) (Face.init 0)))
  = fst (Face.step 1 1 1 (Face.predict_emotion_custom None) (Face.init 0)).
Proof.
  apply (X11_face_samples_at_most_once_per_interval
           (Face.init 0) 1 1 1.2 1 1 None (Some [0; 0; 0; 0; 1; 0; 0])).
  - discriminate.
  - apply Nat.lt_0_1.
  - reflexivity.
Defined.

(** ** One prediction of face_advanced.py *)

Lemma analyze_range (norm : FaceAdvanced.point -> Q)
    (landmarks : option FaceAdvanced.Landmarks) :
  0 <= FaceAdvanced.analyze_facial_features norm landmarks <= 100.
Proof.
  destruct landmarks as [lm|]; [|split; discriminate].
  rewrite analyze_facial_features_unfold, rubric_score_is_confidence.
  pose proof (rubric_confidence_nonneg norm lm) as Hc.
  destruct (Py.lt 0 (snd (FaceAdvanced.rubric norm lm))) eqn:E.
  - apply lt_iff in E.
    set (c := snd (FaceAdvanced.rubric norm lm)) in *.
    assert (D : c / c * 100 == 100) by (field; lra).
    rewrite min_keeps_first; [split; discriminate|].
    rewrite D. apply Qle_refl.
  - apply lt_false_iff in E. lra.
Qed.

(** X12.  [predict_emotion] always returns one of the emotions happy, sad
    and neutral: neutral exactly when the backend raises, happy exactly
    when the happy probability is strictly the larger one.  Only a sad
    prediction carries an intensity other than 0, and when the intensity
    head of the model is in [0, 1] the intensity returned is in [0, 100],
    with or without landmarks. *)
Theorem X12_predict_emotion_range
    (norm : FaceAdvanced.point -> Q)
    (backend : option FaceAdvanced.predictions)
    (landmarks : option FaceAdvanced.Landmarks) :
  let '(emotion, intensity, sad_prob, happy_prob) :=
    FaceAdvanced.predict_emotion norm backend landmarks in
  In emotion ["happy"; "sad"; "neutral"]%string /\
  (emotion = "neutral"%string <-> backend = None) /\
  (emotion = "happy"%string <->
     exists p, backend = Some p /\
               FaceAdvanced.p_sad p * 100 < FaceAdvanced.p_happy p * 100) /\
  (emotion <> "sad"%string -> intensity == 0) /\
  (match backend with
   | Some p => 0 <= FaceAdvanced.p_intensity p <= 1
   | None => True
   end -> 0 <= intensity <= 100).
Proof.
  unfold FaceAdvanced.predict_emotion.
  destruct backend as [p|].
  - destruct (Py.lt (FaceAdvanced.p_sad p * 100)
                    (FaceAdvanced.p_happy p * 100)) eqn:E.
    + apply lt_iff in E.
      split; [simpl; tauto|]. split; [split; discriminate|].
      split; [split; [intros _; exists p; auto|reflexivity]|].
      split; [reflexivity|]. intros _. split; discriminate.
    + apply lt_false_iff in E.
      split; [simpl; tauto|]. split; [split; discriminate|].
      split.
      { split; [discriminate|]. intros (q & Hq & Hlt).
        injection Hq as <-. lra. }
      split; [congruence|]. intros [H0 H1].
      destruct landmarks as [lm|]; [|lra].
      pose proof (analyze_range norm (Some lm)). lra.
  - split; [simpl; tauto|]. split; [split; reflexivity|].
    split; [split; [discriminate|intros (q & Hq & _); discriminate]|].
    split; [reflexivity|]. intros _. split; discriminate.
Qed.

(** A sad prediction on the downturned face: intensity 70. *)
Lemma X12_predict_witness :
  let '(emotion, intensity, _, _) :=
    FaceAdvanced.predict_emotion taxicab
      (Some (FaceAdvanced.mkPredictions 0.6 0.4 0.5)) (Some downturned_face) in
  0 <= intensity <= 100.
Proof.
  pose proof (X12_predict_emotion_range taxicab
                (Some (FaceAdvanced.mkPredictions 0.6 0.4 0.5))
                (Some downturned_face)) as H.
  destruct (FaceAdvanced.predict_emotion _ _ _) as [[[e i] s] h].
  apply H. split; discriminate.
Defined.

(** X13.  [calculate_mouth_aspect_ratio] never returns a negative downturn:
    it is the amount by which the mean height of the two corners lies below
    the centre of the lips, and 0 when the corners are level with it or
    above it.  A mouth whose corners coincide (horizontal length not
    positive) has ratio 0 instead of a division by zero. *)
Theorem X13_mouth_ratio_edge_cases
    (norm : FaceAdvanced.point -> Q) (mouth : list FaceAdvanced.point) :
  let corner_avg_y :=
    (snd (FaceAdvanced.at_ mouth 0) + snd (FaceAdvanced.at_ mouth 6)) / 2 in
  let center_y :=
    (snd (FaceAdvanced.at_ mouth 3) + snd (FaceAdvanced.at_ mouth 9)) / 2 in
  let horizontal :=
    norm (FaceAdvanced.sub (FaceAdvanced.at_ mouth 0)
                           (FaceAdvanced.at_ mouth 6)) in
  0 <= snd (FaceAdvanced.calculate_mouth_aspect_ratio norm mouth) /\
  (corner_avg_y <= center_y ->
     snd (FaceAdvanced.calculate_mouth_aspect_ratio norm mouth) = 0) /\
  (center_y < corner_avg_y ->
     snd (FaceAdvanced.calculate_mouth_aspect_ratio norm mouth)
       = corner_avg_y - center_y) /\
  (horizontal <= 0 ->
     fst (FaceAdvanced.calculate_mouth_aspect_ratio norm mouth) = 0).
Proof.
  intros corner_avg_y center_y horizontal.
  unfold FaceAdvanced.calculate_mouth_aspect_ratio. cbn [fst snd].
  fold corner_avg_y center_y horizontal.
  unfold Py.max. repeat split.
  - destruct (Py.lt 0 (corner_avg_y - center_y)) eqn:E; [|lra].
    apply lt_iff in E. lra.
  - intro H.
    assert (E : Py.lt 0 (corner_avg_y - center_y) = false)
      by (apply lt_false_iff; lra).
    now rewrite E.
  - intro H.
    assert (E : Py.lt 0 (corner_avg_y - center_y) = true)
      by (apply lt_iff; lra).
    now rewrite E.
  - intro H.
    assert (E : Py.lt 0 horizontal = false) by (apply lt_false_iff; lra).
    now rewrite E.
Qed.

(** The downturned face: corners 12 pixels below the centre of the lips. *)
Lemma X13_mouth_witness :
  snd (FaceAdvanced.calculate_mouth_aspect_ratio taxicab
         (FaceAdvanced.mouth downturned_face)) == 12.
Proof.
  rewrite (proj1 (proj2 (proj2
             (X13_mouth_ratio_edge_cases taxicab
                (FaceAdvanced.mouth downturned_face)))));
    reflexivity.
Defined.

(** ** Landmarks and colours of face_advanced.py *)

Lemma slice_length {A : Type} (l : list A) (a b : nat) :
  (b <= length l)%nat -> length (PyList.slice l a b) = (b - a)%nat.
Proof.
  intro H. unfold PyList.slice. rewrite length_firstn, length_skipn. lia.
Qed.

Lemma firstn_plus {A : Type} (n m : nat) (l : list A) :
  firstn (n + m) l = firstn n l ++ firstn m (skipn n l).
Proof.
  revert l. induction n as [|n IH]; intro l; [reflexivity|].
  destruct l as [|x r]; simpl.
  - now rewrite firstn_nil.
  - now rewrite IH.
Qed.

Lemma nth_of_firstn {A : Type} (n i : nat) (l : list A) (d : A) :
  (i < n)%nat -> nth i (firstn n l) d = nth i l d.
Proof.
  revert i l. induction n as [|n IH]; intros i l H; [lia|].
  destruct l as [|x r]; [now destruct i|].
  destruct i as [|i]; [reflexivity|]. simpl. apply IH. lia.
Qed.

Lemma slice_app {A : Type} (l : list A) (a b c : nat) :
  (a <= b)%nat -> (b <= c)%nat ->
  PyList.slice l a b ++ PyList.slice l b c = PyList.slice l a c.
Proof.
  intros Hab Hbc. unfold PyList.slice.
  replace (c - a)%nat with ((b - a) + (c - b))%nat by lia.
  rewrite firstn_plus. f_equal. rewrite skipn_skipn.
  now replace (b - a + a)%nat with b by lia.
Qed.

Lemma slice_all {A : Type} (l : list A) :
  PyList.slice l 0 (length l) = l.
Proof. unfold PyList.slice. simpl. rewrite Nat.sub_0_r. apply firstn_all. Qed.

Lemma slice_nth {A : Type} (l : list A) (a b i : nat) (d : A) :
  (i < b - a)%nat -> nth i (PyList.slice l a b) d = nth (a + i) l d.
Proof.
  intro H. unfold PyList.slice.
  rewrite nth_of_firstn by exact H. apply nth_skipn.
Qed.

(** X14.  With landmarks switched off, or when dlib raises,
    [get_facial_landmarks] returns [None].  Of the 68 points of a shape it
    makes seven features of 6, 6, 5, 5, 9, 20 and 17 points which together
    are the 68 points, each once: jaw, eyebrows, nose, eyes and mouth in
    this order are the shape again.  So every point the geometry functions
    index (eye points 0 to 5, mouth points 0, 3, 6 and 9) exists. *)
Theorem X14_landmark_features_partition_the_shape
    (shape : list FaceAdvanced.point) :
  length shape = 68%nat ->
  FaceAdvancedIO.get_facial_landmarks false (Some shape) = None /\
  FaceAdvancedIO.get_facial_landmarks true None = None /\
  exists lm,
    FaceAdvancedIO.get_facial_landmarks true (Some shape) = Some lm /\
    length (FaceAdvanced.left_eye lm) = 6%nat /\
    length (FaceAdvanced.right_eye lm) = 6%nat /\
    length (FaceAdvanced.left_eyebrow lm) = 5%nat /\
    length (FaceAdvanced.right_eyebrow lm) = 5%nat /\
    length (FaceAdvanced.nose lm) = 9%nat /\
    length (FaceAdvanced.mouth lm) = 20%nat /\
    length (FaceAdvanced.jaw lm) = 17%nat /\
    FaceAdvanced.jaw lm ++ FaceAdvanced.left_eyebrow lm
      ++ FaceAdvanced.right_eyebrow lm ++ FaceAdvanced.nose lm
      ++ FaceAdvanced.left_eye lm ++ FaceAdvanced.right_eye lm
      ++ FaceAdvanced.mouth lm = shape /\
    (forall i, (i < 6)%nat ->
       FaceAdvanced.at_ (FaceAdvanced.left_eye lm) i
         = nth (36 + i) shape (0, 0) /\
       FaceAdvanced.at_ (FaceAdvanced.right_eye lm) i
         = nth (42 + i) shape (0, 0)) /\
    (forall i, (i < 20)%nat ->
       FaceAdvanced.at_ (FaceAdvanced.mouth lm) i
         = nth (48 + i) shape (0, 0)).
Proof.
  intro H. split; [reflexivity|]. split; [reflexivity|].
  eexists. split; [reflexivity|]. cbn [FaceAdvanced.left_eye
    FaceAdvanced.right_eye FaceAdvanced.left_eyebrow
    FaceAdvanced.right_eyebrow FaceAdvanced.nose FaceAdvanced.mouth
    FaceAdvanced.jaw].
  repeat (split; [apply slice_length; lia|]).
  split; [|split].
  - rewrite (slice_app shape 42 48 68), (slice_app shape 36 42 68),
            (slice_app shape 27 36 68), (slice_app shape 22 27 68),
            (slice_app shape 17 22 68), (slice_app shape 0 17 68) by lia.
    rewrite <- H. apply slice_all.
  - intros i Hi. unfold FaceAdvanced.at_.
    split; apply slice_nth; lia.
  - intros i Hi. unfold FaceAdvanced.at_. apply slice_nth; lia.
Qed.

(** On the shape whose point i is (i, 2 i) the left eye starts at
    point 36. *)
Lemma X14_landmarks_witness :
  match FaceAdvancedIO.get_facial_landmarks true (Some ramp_shape) with
  | Some lm => FaceAdvanced.at_ (FaceAdvanced.left_eye lm) 0 = (36, 72)
  | None => False
  end.
Proof.
  destruct (X14_landmark_features_partition_the_shape ramp_shape eq_refl)
    as (_ & _ & lm & -> & _ & _ & _ & _ & _ & _ & _ & _ & Heye & _).
  rewrite (proj1 (Heye 0%nat (Nat.lt_0_succ 5))). reflexivity.
Defined.

(** X15.  For a sad face with intensity in [0, 100) the colour of the box
    [draw_face_box] draws goes with the level [classify_sadness_level]
    names: light red for upset, medium red for melancholic, dark red for
    depressed.  A happy face is green whatever the intensity. *)
Theorem X15_box_colour_follows_the_level (emotion : string) (intensity : Q) :
  0 <= intensity -> intensity < 100 ->
  FaceAdvancedIO.box_colour "happy" intensity = (0, 255, 0)%Z /\
  (emotion <> "happy"%string ->
     FaceAdvancedIO.box_colour emotion intensity =
       match severity (FaceAdvanced.classify_sadness_level intensity) with
       | 0%nat => (100, 100, 255)%Z
       | 1%nat => (50, 50, 255)%Z
       | _ => (0, 0, 200)%Z
       end).
Proof.
  intros H0 H100. split; [reflexivity|]. intro Hn.
  rewrite severity_of_advanced_level by assumption.
  unfold FaceAdvancedIO.box_colour.
  apply String.eqb_neq in Hn. rewrite Hn.
  destruct (Py.lt intensity 35); [reflexivity|].
  destruct (Py.lt intensity 65); reflexivity.
Qed.

Lemma X15_box_colour_witness :
  FaceAdvancedIO.box_colour "sad" 50 = (50, 50, 255)%Z.
Proof.
  rewrite (proj2 (X15_box_colour_follows_the_level "sad" 50
                    ltac:(discriminate) ltac:(reflexivity)))
    by discriminate.
  reflexivity.
Defined.

(** ** Runs of the loop of face_advanced.py *)

Lemma predict_emotion_cases (norm : FaceAdvanced.point -> Q)
    (backend : option FaceAdvanced.predictions)
    (landmarks : option FaceAdvanced.Landmarks) :
  FaceAdvanced.predict_emotion norm backend landmarks
    = ("neutral"%string, 0.0, 50.0, 50.0) \/
  (exists s h,
     FaceAdvanced.predict_emotion norm backend landmarks
       = ("happy"%string, 0.0, s, h)) \/
  (exists i s h,
     FaceAdvanced.predict_emotion norm backend landmarks
       = ("sad"%string, i, s, h) /\
     (match backend with
      | Some p => 0 <= FaceAdvanced.p_intensity p <= 1
      | None => True
      end -> 0 <= i <= 100)).
Proof.
  unfold FaceAdvanced.predict_emotion.
  destruct backend as [p|]; [|now left].
  destruct (Py.lt _ _); right; [left; eauto|right].
  eexists _, _, _. split; [reflexivity|]. intros [H0 H1].
  destruct landmarks as [lm|]; [|lra].
  pose proof (analyze_range norm (Some lm)). lra.
Qed.

Lemma advanced_level_names (intensity : Q) :
  In (FaceAdvanced.classify_sadness_level intensity) level_names.
Proof.
  unfold FaceAdvanced.classify_sadness_level.
  rewrite advanced_find_band_cases.
  destruct (_ && _); [simpl; tauto|].
  destruct (_ && _); [simpl; tauto|].
  destruct (_ && _); simpl; tauto.
Qed.

Lemma advanced_init_ok (t0 : Q) : advanced_window_ok (FaceAdvanced.init t0).
Proof.
  unfold advanced_window_ok. simpl.
  split; [reflexivity|]. split; [constructor|]. split; [constructor|].
  congruence.
Qed.

Lemma advanced_sample_ok (norm : FaceAdvanced.point -> Q) (now : Q)
    (faces : nat) (backend : option FaceAdvanced.predictions)
    (landmarks : option FaceAdvanced.Landmarks) (st : FaceAdvanced.state) :
  match backend with
  | Some p => 0 <= FaceAdvanced.p_intensity p <= 1
  | None => True
  end ->
  advanced_window_ok st ->
  advanced_window_ok (FaceAdvanced.sample norm now faces backend landmarks st).
Proof.
  intros P (Hc & Hl & He & Hd). unfold FaceAdvanced.sample.
  destruct (_ && _); [|now repeat split].
  destruct (predict_emotion_cases norm backend landmarks)
    as [->|[(s & h & ->)|(i & s & h & -> & Hi)]];
    unfold advanced_window_ok; simpl.
  - rewrite map_app. simpl map. rewrite count_occ_snoc.
    destruct (string_dec "neutral" "sad"); [discriminate|].
    split; [lia|]. split; [exact Hl|]. split; [|congruence].
    apply Forall_app. split; [exact He|].
    constructor; [|constructor]. simpl. split; [tauto|reflexivity].
  - rewrite map_app. simpl map. rewrite count_occ_snoc.
    destruct (string_dec "happy" "sad"); [discriminate|].
    split; [lia|]. split; [exact Hl|]. split; [|congruence].
    apply Forall_app. split; [exact He|].
    constructor; [|constructor]. simpl. split; [tauto|reflexivity].
  - rewrite map_app. simpl map. rewrite count_occ_snoc, length_app.
    destruct (string_dec "sad" "sad"); [|congruence].
    split; [simpl; lia|]. split; [|split; [|reflexivity]].
    + apply Forall_app. split; [exact Hl|].
      constructor; [|constructor]. simpl.
      split; [apply advanced_level_names|now apply Hi].
    + apply Forall_app. split; [exact He|].
      constructor; [|constructor]. simpl. split; [tauto|congruence].
Qed.

Lemma advanced_flush_ok (now t_reset : Q) (st : FaceAdvanced.state) :
  advanced_window_ok st ->
  advanced_window_ok (fst (FaceAdvanced.flush now t_reset st)).
Proof.
  intros (Hc & Hl & He & Hd). unfold FaceAdvanced.flush.
  destruct (_ && _); unfold advanced_window_ok; simpl; auto.
Qed.

Lemma advanced_run_ok (norm : FaceAdvanced.point -> Q) (use_landmarks : bool)
    (frames : list FaceAdvancedIO.frame) (st : FaceAdvanced.state) :
  Forall intensity_in_unit frames ->
  advanced_window_ok st ->
  advanced_window_ok (fst (FaceAdvancedIO.run norm use_landmarks frames st)).
Proof.
  revert st. induction frames as [|f r IH]; intros st P H; [exact H|].
  inversion P as [|? ? Pf Pr]; subst.
  simpl. unfold FaceAdvancedIO.step, FaceAdvanced.step.
  destruct (FaceAdvanced.flush _ _ _) as [st' out] eqn:F.
  specialize (IH st' Pr).
  destruct (FaceAdvancedIO.run norm use_landmarks r st') as [st'' rows].
  simpl in *. apply IH.
  change st' with (fst (st', out)). rewrite <- F.
  apply advanced_flush_ok, advanced_sample_ok; assumption.
Qed.

(** X16.  However the loop of [face_advanced.py] has run from its start on
    a model whose intensity head answers in [0, 1]: every sample of the
    window is labelled happy, sad or neutral; every sample that is not sad
    has intensity 0; the sad-sample list has one entry per sad sample, each
    with a level upset, melancholic or depressed and an intensity in
    [0, 100]; and a level is displayed only while the emotion is sad. *)
Theorem X16_advanced_buffers_agree_along_a_run
    (norm : FaceAdvanced.point -> Q) (use_landmarks : bool)
    (frames : list FaceAdvancedIO.frame) (t0 : Q) :
  Forall intensity_in_unit frames ->
  advanced_window_ok
    (fst (FaceAdvancedIO.run norm use_landmarks frames (FaceAdvanced.init t0))).
Proof.
  intro P. apply advanced_run_ok; [exact P|apply advanced_init_ok].
Qed.

(** Two frames without landmarks, a sad and a happy face. *)
Lemma X16_advanced_run_witness :
  advanced_window_ok
    (fst (FaceAdvancedIO.run taxicab false
            [FaceAdvancedIO.mkFrame 1 1 1
               (Some (FaceAdvanced.mkPredictions 0.6 0.4 0.5)) None;
             FaceAdvancedIO.mkFrame 2 2 1
               (Some (FaceAdvanced.mkPredictions 0.1 0.9 0)) None]
            (FaceAdvanced.init 0))).
Proof.
  apply X16_advanced_buffers_agree_along_a_run.
  repeat constructor; discriminate.
Defined.

(** ** The heuristic detector of face_simple.py *)





(** X18.  The indicators of [detect_emotion] are tried in a fixed order.
    A smile found by the cascade makes the answer happy whatever the mouth
    region measures.  When the mouth region is not larger than 10 by 10
    pixels the measurements are not taken, and without a cascade smile the
    answer is sad with confidence 35; the same answer is given when no
    indicator fires on a larger region. *)
Theorem X18_detect_emotion_order_and_fallback
    (smiles roi_rows roi_cols : nat) (measured : FaceSimpleLoop.measures) :
  ((0 < smiles)%nat ->
     FaceSimpleLoop.detect_emotion smiles roi_rows roi_cols measured
       = ("happy"%string,
          Py.min 90 (60 + inject_Z (Z.of_nat smiles) * 10))) /\
  (smiles = 0%nat -> (roi_rows <= 10)%nat \/ (roi_cols <= 10)%nat ->
     FaceSimpleLoop.detect_emotion smiles roi_rows roi_cols measured
       = ("sad"%string, 35)) /\
  (smiles = 0%nat -> (10 < roi_rows)%nat -> (10 < roi_cols)%nat ->
     FaceSimpleLoop.brightness_diff measured <= 5 ->
     FaceSimpleLoop.inverted_smile measured <= 8 ->
     FaceSimpleLoop.edge_ratio measured <= 1.5 ->
     -2 <= FaceSimpleLoop.brightness_diff measured ->
     FaceSimpleLoop.detect_emotion smiles roi_rows roi_cols measured
       = ("sad"%string, 35)).
Proof.
  unfold FaceSimpleLoop.detect_emotion. split; [|split].
  - intro H. apply Nat.ltb_lt in H. now rewrite H.
  - intros -> H.
    assert (E : (10 <? roi_rows)%nat && (10 <? roi_cols)%nat = false).
    { apply andb_false_iff. destruct H as [H|H];
        [left|right]; apply Nat.ltb_ge; exact H. }
    rewrite E. reflexivity.
  - intros -> Hr Hc H1 H2 H3 H4.
    apply Nat.ltb_lt in Hr, Hc. rewrite Hr, Hc. simpl.
    apply lt_false_iff in H1, H2, H3, H4.
    now rewrite H1, H2, H3, H4.
Qed.

(** A face too small for the mouth analysis. *)
Lemma X18_small_region_witness :
  FaceSimpleLoop.detect_emotion 0 8 30 (FaceSimpleLoop.mkMeasures 40 0 1)
    = ("sad"%string, 35).
Proof.
  apply (proj1 (proj2 (X18_detect_emotion_order_and_fallback 0 8 30
                         (FaceSimpleLoop.mkMeasures 40 0 1)))).
  - reflexivity.
  - left. apply Nat.le_succ_diag_r || lia.
Defined.

(** ** Runs of the loop of face_simple.py *)

Lemma simple_sample_count (f : FaceSimpleLoop.frame) (s : FaceSimpleLoop.session) :
  let s' := FaceSimpleLoop.sample f s in
  (FaceSimpleLoop.happy_count s' + FaceSimpleLoop.sad_count s'
   + length (FaceSimple.window_emotions (FaceSimpleLoop.window s)))%nat
  = (FaceSimpleLoop.happy_count s + FaceSimpleLoop.sad_count s
     + length (FaceSimple.window_emotions (FaceSimpleLoop.window s')))%nat.
Proof.
  unfold FaceSimpleLoop.sample.
  destruct (_ && _); [|simpl; lia].
  destruct (FaceSimpleLoop.detect_emotion _ _ _ _) as [emotion confidence].
  destruct (String.eqb emotion "happy"); simpl; rewrite length_app; simpl; lia.
Qed.

Lemma simple_flush_count (now t_reset : Q) (w : FaceSimple.state) :
  length (FaceSimple.window_emotions w)
  = (length (FaceSimple.window_emotions (fst (FaceSimple.flush now t_reset w)))
     + match snd (FaceSimple.flush now t_reset w) with
       | Some r => FaceSimple.r_samples_collected r
       | None => 0
       end)%nat.
Proof.
  unfold FaceSimple.flush.
  destruct (_ && _) eqn:G; [|simpl; lia].
  apply andb_true_iff in G as [_ G]. apply truthy_list_true in G.
  destruct (simple_summary_defined w G) as [r Hr]. simpl. rewrite Hr.
  unfold FaceSimple.summary in Hr.
  destruct (FaceSimple.window_emotions w) as [|e es]; [discriminate|].
  destruct (Window.dominant_of _); [|discriminate].
  injection Hr as <-. reflexivity.
Qed.

Lemma simple_run_count (frames : list FaceSimpleLoop.frame)
    (s : FaceSimpleLoop.session) :
  let '(s', rows) := FaceSimpleLoop.run frames s in
  (FaceSimpleLoop.happy_count s' + FaceSimpleLoop.sad_count s'
   + length (FaceSimple.window_emotions (FaceSimpleLoop.window s)))%nat
  = (FaceSimpleLoop.happy_count s + FaceSimpleLoop.sad_count s
     + length (FaceSimple.window_emotions (FaceSimpleLoop.window s'))
     + list_sum (map FaceSimple.r_samples_collected rows))%nat.
Proof.
  revert s. induction frames as [|f r IH]; intro s; [simpl; lia|].
  simpl. unfold FaceSimpleLoop.step.
  pose proof (simple_sample_count f s) as H1. cbv zeta in H1.
  set (s1 := FaceSimpleLoop.sample f s) in *.
  pose proof (simple_flush_count (FaceSimpleLoop.f_now f)
                (FaceSimpleLoop.f_reset f) (FaceSimpleLoop.window s1)) as H2.
  destruct (FaceSimple.flush _ _ _) as [w out]. simpl in H2.
  specialize (IH (FaceSimpleLoop.mkSession w
                    (FaceSimpleLoop.last_sample_time s1)
                    (FaceSimpleLoop.current_emotion s1)
                    (FaceSimpleLoop.current_confidence s1)
                    (FaceSimpleLoop.happy_count s1)
                    (FaceSimpleLoop.sad_count s1))).
  destruct (FaceSimpleLoop.run r _) as [s'' rows]. simpl in IH.
  destruct out as [row|]; simpl; lia.
Qed.

(** X19.  In a session of [face_simple.py] no sample is lost and none is
    counted twice: at any time the two session counters add up to the
    number of samples in the current window plus the sample counts of all
    rows written so far. *)
Theorem X19_simple_session_accounts_for_every_sample
    (frames : list FaceSimpleLoop.frame) (t0 : Q) :
  let '(s, rows) := FaceSimpleLoop.run frames (FaceSimpleLoop.init t0) in
  (FaceSimpleLoop.happy_count s + FaceSimpleLoop.sad_count s)%nat
  = (length (FaceSimple.window_emotions (FaceSimpleLoop.window s))
     + list_sum (map FaceSimple.r_samples_collected rows))%nat.
Proof.
  pose proof (simple_run_count frames (FaceSimpleLoop.init t0)) as H.
  destruct (FaceSimpleLoop.run frames _) as [s rows]. simpl in H. lia.
Qed.

(** ** The intensity batches of train_binary_model.py *)

(** X20.  A batch of intensity labels handed out by [data_generator] has
    as many labels as the image batch, provided the image batch is not
    longer than the label array: the slice never runs past the end of the
    array, the counter starting again from the front when it would. *)
Theorem X20_intensity_batch_matches_image_batch {A : Type}
    (y_intensity : list A) (batch_size i batch : nat) :
  (batch <= length y_intensity)%nat ->
  length (fst (Training.data_generator_next y_intensity batch_size i batch))
    = batch /\
  (snd (Training.data_generator_next y_intensity batch_size i batch)
     = S i \/
   snd (Training.data_generator_next y_intensity batch_size i batch)
     = 1%nat /\
   fst (Training.data_generator_next y_intensity batch_size i batch)
     = firstn batch y_intensity).
Proof.
  intro H. unfold Training.data_generator_next.
  destruct (length y_intensity <? i * batch_size + batch)%nat eqn:E; simpl.
  - split; [rewrite slice_length; lia|].
    right. split; [reflexivity|].
    unfold PyList.slice. simpl. now rewrite Nat.sub_0_r.
  - apply Nat.ltb_ge in E.
    split; [rewrite slice_length; lia|]. left. lia.
Qed.

(** Ten labels in batches of four: the third batch starts again at 0. *)
Lemma X20_batch_witness :
  fst (Training.data_generator_next [0; 1; 2; 3; 4; 5; 6; 7; 8; 9]%nat 4 2 4)
    = [0; 1; 2; 3]%nat.
Proof.
  destruct (X20_intensity_batch_matches_image_batch
              [0; 1; 2; 3; 4; 5; 6; 7; 8; 9]%nat 4 2 4
              ltac:(repeat constructor)) as [_ [H|[_ H]]].
  - discriminate H.
  - exact H.
Defined.

(** ** The scores listed in the panel of face.py *)

Section SortedScores.

Context {A : Type}.
Variable key : A -> Q.

Lemma insert_desc_perm (x : A) (l : list A) :
  Permutation (PyList.insert_desc key x l) (x :: l).
Proof.
  induction l as [|y r IH]; simpl; [apply Permutation_refl|].
  destruct (Py.lt (key x) (key y)); [|apply Permutation_refl].
  eapply Permutation_trans; [apply perm_skip, IH|apply perm_swap].
Qed.

Lemma sorted_desc_perm (l : list A) :
  Permutation (PyList.sorted_desc key l) l.
Proof.
  induction l as [|x r IH]; simpl; [constructor|].
  eapply Permutation_trans; [apply insert_desc_perm|now constructor].
Qed.

Lemma insert_desc_hd (x a : A) (l : list A) :
  HdRel (fun a b => key b <= key a) a l -> key x <= key a ->
  HdRel (fun a b => key b <= key a) a (PyList.insert_desc key x l).
Proof.
  intros Hl Hx. destruct l as [|y r]; simpl; [now constructor|].
  destruct (Py.lt (key x) (key y)); constructor;
    [now inversion Hl|exact Hx].
Qed.

Lemma insert_desc_sorted (x : A) (l : list A) :
  Sorted (fun a b => key b <= key a) l ->
  Sorted (fun a b => key b <= key a) (PyList.insert_desc key x l).
Proof.
  induction l as [|y r IH]; intro H; simpl; [repeat constructor|].
  inversion H as [|? ? Hr Hy]; subst.
  destruct (Py.lt (key x) (key y)) eqn:E.
  - constructor; [now apply IH|].
    apply insert_desc_hd; [exact Hy|].
    apply lt_iff in E. lra.
  - constructor; [exact H|]. constructor.
    apply lt_false_iff in E. exact E.
Qed.

Lemma sorted_desc_sorted (l : list A) :
  Sorted (fun a b => key b <= key a) (PyList.sorted_desc key l).
Proof.
  induction l as [|x r IH]; simpl; [constructor|].
  now apply insert_desc_sorted.
Qed.

(** The maximum of [x :: y :: r] is [x] unless the maximum of [y :: r]
    has a strictly greater key. *)
Lemma max_from_cons (x y : A) (r : list A) :
  Py.max_from Py.lt key x (y :: r) =
    if Py.lt (key x) (key (Py.max_from Py.lt key y r))
    then Py.max_from Py.lt key y r else x.
Proof.
  revert x y. induction r as [|z r IH]; intros x y; [reflexivity|].
  change (Py.max_from Py.lt key x (y :: z :: r))
    with (Py.max_from Py.lt key
            (if Py.lt (key x) (key y) then y else x) (z :: r)).
  rewrite IH. rewrite (IH y z).
  set (m := Py.max_from Py.lt key z r).
  destruct (Py.lt (key x) (key y)) eqn:Exy;
    destruct (Py.lt (key y) (key m)) eqn:Eym;
    destruct (Py.lt (key x) (key m)) eqn:Exm;
    try rewrite Exy; try rewrite Eym; try rewrite Exm; try reflexivity;
    exfalso; rewrite ?lt_iff, ?lt_false_iff in *; lra.
Qed.

Lemma sorted_desc_head (l : list A) :
  hd_error (PyList.sorted_desc key l) = Py.max_key Py.lt key l.
Proof.
  induction l as [|x r IH]; [reflexivity|].
  simpl PyList.sorted_desc.
  destruct r as [|y r']; [reflexivity|].
  destruct (PyList.sorted_desc key (y :: r')) as [|m t] eqn:S.
  - simpl in IH. discriminate.
  - simpl in IH. injection IH as ->.
    unfold Py.max_key. rewrite max_from_cons. simpl.
    now destruct (Py.lt _ _).
Qed.

End SortedScores.

(** X21.  The panel of [face.py] lists the three highest scores, or all of
    them when there are fewer, in descending order: the list is the front
    of a descending rearrangement of the scores.  Its first line is the item
    [get_dominant_emotion] takes the maximum at, so the score shown on top
    belongs to the dominant emotion. *)
Theorem X21_panel_lists_the_top_scores (current_scores : Py.dict Q) :
  hd_error (FaceDisplay.top_scores current_scores)
    = Face.max_emotion current_scores /\
  length (FaceDisplay.top_scores current_scores)
    = Nat.min 3 (length current_scores) /\
  exists ranked,
    Permutation ranked current_scores /\
    Sorted (fun a b => snd b <= snd a) ranked /\
    FaceDisplay.top_scores current_scores = firstn 3 ranked.
Proof.
  unfold FaceDisplay.top_scores, Face.max_emotion.
  change (PyList.slice (PyList.sorted_desc snd current_scores) 0 3)
    with (firstn 3 (PyList.sorted_desc snd current_scores)).
  pose proof (sorted_desc_perm snd current_scores) as P.
  split; [|split].
  - rewrite <- (sorted_desc_head snd current_scores).
    now destruct (PyList.sorted_desc snd current_scores).
  - rewrite length_firstn, (Permutation_length P). reflexivity.
  - exists (PyList.sorted_desc snd current_scores).
    split; [exact P|]. split; [|reflexivity].
    apply (sorted_desc_sorted snd).
Qed.

(** ** Rows of face_advanced.py *)

Lemma total_nonneg (xs : list Q) :
  (forall x, In x xs -> 0 <= x) -> 0 <= Window.total xs.
Proof.
  induction xs as [|x r IH]; intro H.
  - change (Window.total []) with 0. lra.
  - rewrite total_cons. pose proof (H x (or_introl eq_refl)).
    assert (0 <= Window.total r) by (apply IH; intros y Hy; apply H; now right).
    lra.
Qed.

Lemma total_zero (xs : list Q) :
  (forall x, In x xs -> 0 <= x) ->
  (Window.total xs == 0 <-> forall x, In x xs -> x == 0).
Proof.
  induction xs as [|x r IH]; intro H.
  - split; [intros _ y []|reflexivity].
  - rewrite total_cons.
    pose proof (H x (or_introl eq_refl)) as Hx.
    assert (Hr : forall y, In y r -> 0 <= y) by (intros y Hy; apply H; now right).
    pose proof (total_nonneg r Hr) as Ht.
    specialize (IH Hr). split.
    + intros E y [<-|Hy]; [lra|]. apply IH; [lra|exact Hy].
    + intro Z. assert (x == 0) by (apply Z; now left).
      assert (Window.total r == 0) by (apply IH; intros y Hy; apply Z; now right).
      lra.
Qed.

Lemma mean_zero (xs : list Q) :
  xs <> [] -> (forall x, In x xs -> 0 <= x) ->
  (Window.total xs / Window.len xs == 0 <-> forall x, In x xs -> x == 0).
Proof.
  intros Hne H. rewrite <- (total_zero xs H).
  assert (Hn : 0 < Window.len xs).
  { destruct xs as [|x r]; [congruence|].
    rewrite len_cons. pose proof (len_nonneg r). lra. }
  split; intro E.
  - assert (Window.total xs == Window.total xs / Window.len xs * Window.len xs)
      by (field; lra).
    rewrite E in H0. lra.
  - rewrite E. field. lra.
Qed.

(** X22.  Let [face_advanced.py] write a row for a window whose buffers
    agree (as they do along every run).  The level column is "N/A" exactly
    when the window has no sad sample, and otherwise names a level.  The
    intensity column is "N/A" exactly when there is no sad sample or every
    sad sample has intensity 0; otherwise it is the formatted mean, a value
    greater than 0 and at most 100.  The primary emotion is happy, sad or
    neutral. *)
Theorem X22_advanced_row_sadness_columns
    (now t_reset : Q) (st : FaceAdvanced.state) (r : FaceAdvanced.row) :
  advanced_window_ok st ->
  snd (FaceAdvanced.flush now t_reset st) = Some r ->
  (FaceAdvanced.r_sadness_level r = Window.Str "N/A" <->
     FaceAdvanced.window_sadness_data st = []) /\
  (FaceAdvanced.window_sadness_data st <> [] ->
     exists l, FaceAdvanced.r_sadness_level r = Window.Str l /\
               In l level_names) /\
  (FaceAdvanced.r_sadness_intensity r = Window.Str "N/A" <->
     FaceAdvanced.window_sadness_data st = [] \/
     forall s, In s (FaceAdvanced.window_sadness_data st) ->
               FaceAdvanced.s_intensity s == 0) /\
  (forall x, FaceAdvanced.r_sadness_intensity r = Window.Fixed2 x ->
             0 < x <= 100) /\
  In (FaceAdvanced.r_primary_emotion r) ["happy"; "sad"; "neutral"]%string.
Proof.
  intros (_ & Hl & He & _). unfold FaceAdvanced.flush.
  destruct (_ && _); [|discriminate]. cbn [snd].
  unfold FaceAdvanced.summary.
  destruct (FaceAdvanced.window_emotions st) as [|e es] eqn:Ew;
    [discriminate|]. rewrite <- Ew in *.
  destruct (Window.dominant_of _) as [d|] eqn:D; [|discriminate].
  assert (Hd : In d ["happy"; "sad"; "neutral"]%string).
  { destruct (dominant_first_seen _ _ D) as (Hin & _).
    apply in_map_iff in Hin as (e' & <- & He').
    rewrite Forall_forall in He. now apply He. }
  unfold FaceAdvanced.sadness_summary.
  rewrite Forall_forall in Hl.
  destruct (FaceAdvanced.window_sadness_data st) as [|s0 data] eqn:E.
  - intros [= <-].
    cbn [FaceAdvanced.r_sadness_level FaceAdvanced.r_sadness_intensity
         FaceAdvanced.r_primary_emotion].
    split; [split; reflexivity|]. split; [congruence|].
    split; [split; [now left|reflexivity]|]. split; [discriminate|exact Hd].
  - rewrite <- E in *. intros [= <-].
    cbn [FaceAdvanced.r_sadness_level FaceAdvanced.r_sadness_intensity
         FaceAdvanced.r_primary_emotion].
    set (data' := FaceAdvanced.window_sadness_data st) in *.
    assert (Hne : data' <> []) by (rewrite E; discriminate).
    assert (Hne' : map FaceAdvanced.s_level data' <> [])
      by (rewrite E; discriminate).
    destruct (dominant_defined _ Hne') as [l Dl]. rewrite Dl.
    assert (Hlev : In l level_names).
    { destruct (dominant_first_seen _ _ Dl) as (Hin & _).
      apply in_map_iff in Hin as (s' & <- & Hs'). now apply Hl. }
    rewrite (level_names_truthy l Hlev).
    set (xs := map FaceAdvanced.s_intensity data').
    assert (Hxs : xs <> []) by (unfold xs; rewrite E; discriminate).
    assert (Hx : forall x, In x xs -> 0 <= x <= 100).
    { intros x Hx. apply in_map_iff in Hx as (s' & <- & Hs'). now apply Hl. }
    assert (Hx0 : forall x, In x xs -> 0 <= x)
      by (intros x Hi; now destruct (Hx x Hi)).
    rewrite <- (len_map FaceAdvanced.s_intensity). fold xs.
    pose proof (mean_bounds xs 0 100 Hxs Hx) as [M0 M100].
    pose proof (mean_zero xs Hxs Hx0) as MZ.
    destruct (intensity_cell_some (Window.total xs / Window.len xs))
      as [CZ CN].
    unfold Window.intensity_cell in CZ, CN.
    split; [|split; [|split; [|split]]].
    + split; [|congruence]. intros [= ->].
      destruct Hlev as [H|[H|[H|[]]]]; discriminate.
    + intros _. exists l. auto.
    + split.
      * intro C. right. intros s Hs.
        assert (Z : Window.total xs / Window.len xs == 0).
        { destruct (Qeq_dec (Window.total xs / Window.len xs) 0) as [Z|Z];
            [exact Z|]. rewrite (CN Z) in C. discriminate. }
        apply (proj1 MZ Z). unfold xs. now apply in_map.
      * intros [C|C]; [congruence|]. apply CZ, MZ.
        intros x Hi. apply in_map_iff in Hi as (s' & <- & Hs'). now apply C.
    + intros x C.
      destruct (Qeq_dec (Window.total xs / Window.len xs) 0) as [Z|Z].
      * rewrite (CZ Z) in C. discriminate.
      * rewrite (CN Z) in C. injection C as <-. split; [lra|exact M100].
    + exact Hd.
Qed.

(** A window with one sad sample of intensity 40 and one happy sample. *)
Lemma X22_advanced_row_witness :
  match snd (FaceAdvanced.flush 30 31
               (FaceAdvanced.mkState
                  [FaceAdvanced.mkEntry "sad" 40 60 40;
                   FaceAdvanced.mkEntry "happy" 0 10 90]
                  [FaceAdvanced.mkSad "melancholic" 40]
                  0 2 "happy" None 0 10 90)) with
  | Some r => exists l, FaceAdvanced.r_sadness_level r = Window.Str l /\
                        In l level_names
  | None => False
  end.
Proof.
  destruct (snd (FaceAdvanced.flush 30 31 _)) as [r|] eqn:E;
    [|discriminate E].
  refine (proj1 (proj2 (X22_advanced_row_sadness_columns _ _ _ _ _ E)) _).
  - unfold advanced_window_ok. simpl.
    split; [reflexivity|]. split.
    + repeat constructor; simpl; try tauto; discriminate.
    + split; [|congruence].
      repeat constructor; simpl; try tauto; try discriminate;
        intros; reflexivity.
  - discriminate.
Defined.

(** X23.  After an idle stretch [face_advanced.py] writes the next sample
    alone.  When the window is empty and has been open for the window
    length or longer, the iteration that takes the next sample also closes
    the window: a row with a sample count of 1 is written, and the window
    restarts empty at the fresh clock reading. *)
Theorem X23_advanced_first_sample_after_idle_is_written_alone
    (norm : FaceAdvanced.point -> Q) (now t_reset : Q) (faces : nat)
    (backend : option FaceAdvanced.predictions)
    (landmarks : option FaceAdvanced.Landmarks) (st : FaceAdvanced.state) :
  FaceAdvanced.window_emotions st = [] ->
  FaceAdvanced.AGGREGATION_WINDOW <= now - FaceAdvanced.window_start st ->
  FaceAdvanced.SAMPLE_INTERVAL <= now - FaceAdvanced.last_sample_time st ->
  (0 < faces)%nat ->
  exists r,
    snd (FaceAdvanced.step norm now t_reset faces backend landmarks st)
      = Some r /\
    FaceAdvanced.r_samples_collected r = 1%nat /\
    FaceAdvanced.window_emotions
      (fst (FaceAdvanced.step norm now t_reset faces backend landmarks st))
      = [] /\
    FaceAdvanced.window_start
      (fst (FaceAdvanced.step norm now t_reset faces backend landmarks st))
      = t_reset.
Proof.
  intros Ew Ha Hs Hf. unfold FaceAdvanced.step, FaceAdvanced.sample.
  apply le_iff in Ha, Hs. apply Nat.ltb_lt in Hf. rewrite Hs, Hf.
  cbn [andb]. rewrite Ew.
  destruct (FaceAdvanced.predict_emotion norm backend landmarks)
    as [[[emotion intensity] sad_prob] happy_prob].
  destruct (String.eqb emotion "sad");
    unfold FaceAdvanced.flush; cbn [FaceAdvanced.window_start
      FaceAdvanced.window_emotions app Py.truthy_list];
    rewrite Ha; cbn [andb fst snd FaceAdvanced.window_emotions
      FaceAdvanced.window_start];
    unfold FaceAdvanced.summary; cbn [FaceAdvanced.window_emotions];
    (destruct (dominant_of_tally_defined
                 (map FaceAdvanced.e_emotion
                    [FaceAdvanced.mkEntry emotion intensity sad_prob happy_prob]))
       as [d Hd]; [discriminate|]);
    rewrite Hd; destruct (FaceAdvanced.sadness_summary _);
    eexists; repeat split.
Qed.

(** The first face after 45 idle seconds. *)
Lemma X23_idle_witness :
  exists r,
    snd (FaceAdvanced.step taxicab 45 46 1
           (Some (FaceAdvanced.mkPredictions 0.2 0.8 0)) None
           (FaceAdvanced.init 0)) = Some r /\
    FaceAdvanced.r_samples_collected r = 1%nat.
Proof.
  destruct (X23_advanced_first_sample_after_idle_is_written_alone
              taxicab 45 46 1 (Some (FaceAdvanced.mkPredictions 0.2 0.8 0))
              None (FaceAdvanced.init 0) eq_refl
              ltac:(discriminate) ltac:(discriminate) Nat.lt_0_1)
    as (r & E & H & _).
  exists r. split; assumption.
Defined.

(** ** A degenerate eye *)

(** X24.  When the two corner points of an eye are at no distance from
    each other, the eye aspect ratio is a division by zero: numpy answers
    with a non-finite value, the average over both eyes is non-finite too,
    and neither eye test of the rubric succeeds, so a degenerate eye adds
    nothing to the score.  The score then comes from brows, mouth and jaw
    alone and is at most 80 before normalisation. *)
Theorem X24_degenerate_eye_adds_no_points
    (norm : FaceAdvanced.point -> Q) (lm : FaceAdvanced.Landmarks) :
  norm (FaceAdvanced.sub (FaceAdvanced.at_ (FaceAdvanced.left_eye lm) 0)
                         (FaceAdvanced.at_ (FaceAdvanced.left_eye lm) 3)) == 0 \/
  norm (FaceAdvanced.sub (FaceAdvanced.at_ (FaceAdvanced.right_eye lm) 0)
                         (FaceAdvanced.at_ (FaceAdvanced.right_eye lm) 3)) == 0 ->
  FaceAdvanced.avg_ear norm lm = None /\
  FaceAdvanced.below (FaceAdvanced.avg_ear norm lm) 0.20 = false /\
  FaceAdvanced.below (FaceAdvanced.avg_ear norm lm) 0.25 = false /\
  snd (FaceAdvanced.rubric norm lm) <= 80.
Proof.
  intro H.
  assert (E : FaceAdvanced.avg_ear norm lm = None).
  { unfold FaceAdvanced.avg_ear, FaceAdvanced.average_ear,
      FaceAdvanced.calculate_eye_aspect_ratio.
    destruct H as [H|H].
    - assert (Z : Qeq_bool
                    (2.0 * norm (FaceAdvanced.sub
                                   (FaceAdvanced.at_ (FaceAdvanced.left_eye lm) 0)
                                   (FaceAdvanced.at_ (FaceAdvanced.left_eye lm) 3)))
                    0 = true)
        by (apply Qeq_bool_iff; rewrite H; reflexivity).
      now rewrite Z.
    - assert (Z : Qeq_bool
                    (2.0 * norm (FaceAdvanced.sub
                                   (FaceAdvanced.at_ (FaceAdvanced.right_eye lm) 0)
                                   (FaceAdvanced.at_ (FaceAdvanced.right_eye lm) 3)))
                    0 = true)
        by (apply Qeq_bool_iff; rewrite H; reflexivity).
      rewrite Z. clear Z.
      match goal with |- context [Qeq_bool ?a 0] => destruct (Qeq_bool a 0) end;
        reflexivity. }
  split; [exact E|]. rewrite E. split; [reflexivity|]. split; [reflexivity|].
  unfold FaceAdvanced.rubric. rewrite E.
  destruct (FaceAdvanced.calculate_mouth_aspect_ratio norm _) as [mar downturn].
  cbn [FaceAdvanced.below].
  split_rubric; discriminate.
Qed.

(** The open face with the left eye collapsed to one point. *)
Lemma X24_degenerate_eye_witness :
  FaceAdvanced.avg_ear taxicab
    (FaceAdvanced.mkLandmarks
       [(60, 80); (60, 80); (60, 80); (60, 80); (60, 80); (60, 80)]
       (FaceAdvanced.right_eye open_face)
       (FaceAdvanced.left_eyebrow open_face)
       (FaceAdvanced.right_eyebrow open_face)
       (FaceAdvanced.nose open_face) (FaceAdvanced.mouth open_face)
       (FaceAdvanced.jaw open_face)) = None.
Proof.
  apply X24_degenerate_eye_adds_no_points. left. reflexivity.
Defined.
